(** * SVGenotyperPyroModel: a shallow embedding of svgenotyper/model.py

    The development follows the source file top to bottom:
    - Python values, exceptions and the object heap;
    - [SVGenotyperData] and [SVGenotyperPyroModel.__init__];
    - the arithmetic of [model] (genotype-state prior, read-depth switch,
      emission means, negative-binomial reparameterization), cell by cell
      over the real numbers;
    - the two discrete-inference drivers [infer_discrete] and
      [infer_discrete_full], as state-passing programs over an explicit
      random-number state.

    Tensor arithmetic is modelled over [R]: rounding is not modelled, a
    division by zero yields the IEEE special values torch produces. *)

From stdpp Require Import gmap strings pretty list.
From Stdlib Require Import Reals Lra.

Set Default Proof Using "Type".

(** ** Python exceptions and results *)

Inductive PyError : Type :=
  | ValueError (msg : string)
  | TypeError (msg : string)
  | KeyError (key : string)
  | IndexError (msg : string)
  | RuntimeError (msg : string)
  | ZeroDivisionError (msg : string).

Inductive PyResult (A : Type) : Type :=
  | Ok (a : A)
  | Raise (e : PyError).
Arguments Ok {A} a.
Arguments Raise {A} e.

(** ** constants.SVTypes *)

(** Modelled from the spec: the enumeration [SVTypes] of module
    [constants], which model.py imports and whose definition is missing.
    The spec names the four variant classes Deletion, Duplication,
    Insertion and Inversion and speaks of unsupported variant classes;
    every further member of the enumeration is represented by [OTHER]
    carrying its [name]. *)
Inductive SVTypes : Type :=
  | DEL
  | DUP
  | INS
  | INV
  | OTHER (name : string).

#[global] Instance SVTypes_eq_dec : EqDecision SVTypes.
Proof. solve_decision. Defined.

Definition SVTypes_name (t : SVTypes) : string :=
  match t with
  | DEL => "DEL"
  | DUP => "DUP"
  | INS => "INS"
  | INV => "INV"
  | OTHER n => n
  end.

(** The variant classes the spec lists as genotypable. *)
Definition supported (t : SVTypes) : Prop :=
  t = DEL \/ t = DUP \/ t = INS \/ t = INV.

(** ** The object heap

    [loss] is a mutable dictionary shared between the caller, the model
    object and the training loop, so dictionaries and lists live in a heap
    and are passed by reference.  Only the loss trace is kept in this heap:
    the other objects that [__init__] creates (the [latent_sites] list, the
    guide) are not handed in by the caller and are carried as values of the
    model record. *)

Definition loc := nat.

Inductive PyVal : Type :=
  | PyInt (z : Z)
  | PyFloat (r : R)
  | PyRef (l : loc).

Inductive PyObj : Type :=
  | PyList (xs : list PyVal)
  | PyDict (d : gmap string PyVal).

Definition alloc (o : PyObj) (h : gmap loc PyObj) : loc * gmap loc PyObj :=
  let l := fresh (dom h) in (l, <[l := o]> h).

(** ** SVGenotyperPyroModel *)

(** The prior-scale keyword arguments of [__init__]. *)
Record Hyper : Type := {
  h_mu_eps_pe : R;
  h_mu_eps_sr1 : R;
  h_mu_eps_sr2 : R;
  h_mu_lambda_pe : R;
  h_mu_lambda_sr1 : R;
  h_mu_lambda_sr2 : R;
  h_var_phi_pe : R;
  h_var_phi_sr1 : R;
  h_var_phi_sr2 : R;
  h_mu_eta_q : R;
  h_mu_eta_r : R
}.

Definition default_hyper : Hyper := {|
  h_mu_eps_pe := 0.1; h_mu_eps_sr1 := 0.1; h_mu_eps_sr2 := 0.1;
  h_mu_lambda_pe := 0.1; h_mu_lambda_sr1 := 0.1; h_mu_lambda_sr2 := 0.1;
  h_var_phi_pe := 0.1; h_var_phi_sr1 := 0.1; h_var_phi_sr2 := 0.1;
  h_mu_eta_q := 0.1; h_mu_eta_r := 0.01
|}%R.

(** The attributes of a constructed model.  [guide] is an
    [AutoDiagonalNormal] built lazily from [latent_sites]; it is
    represented by the sampling oracles of the inference section. *)
Record SVGenotyperPyroModel : Type := {
  mu_eps_pe : R;
  mu_eps_sr1 : R;
  mu_eps_sr2 : R;
  mu_lambda_pe : R;
  mu_lambda_sr1 : R;
  mu_lambda_sr2 : R;
  var_phi_pe : R;
  var_phi_sr1 : R;
  var_phi_sr2 : R;
  mu_eta_q : R;
  mu_eta_r : R;
  svtype : SVTypes;
  device : string;
  loss : loc;
  k : Z;
  latent_sites : list string
}.

Definition unsupported_svtype {A} (t : SVTypes) : PyResult A :=
  Raise (ValueError ("SV type " +:+ SVTypes_name t +:+ " not supported for genotyping.")).

(** [if loss is None: self.loss = {'epoch': [], 'elbo': []} else: self.loss = loss] *)
Definition init_loss (loss_arg : option loc) (h : gmap loc PyObj)
  : loc * gmap loc PyObj :=
  match loss_arg with
  | None =>
      let '(l_epoch, h1) := alloc (PyList []) h in
      let '(l_elbo, h2) := alloc (PyList []) h1 in
      alloc (PyDict (<["elbo" := PyRef l_elbo]> {["epoch" := PyRef l_epoch]})) h2
  | Some l => (l, h)
  end.

(** The first [if k is not None ... elif ... else raise] chain. *)
Definition init_k (t : SVTypes) (k_arg : option Z) : PyResult Z :=
  match k_arg with
  | Some kv => Ok kv
  | None =>
      match t with
      | DEL | INS | INV => Ok 3%Z
      | DUP => Ok 5%Z
      | OTHER _ => unsupported_svtype t
      end
  end.

(** The second chain, selecting the continuous latent sites of the class. *)
Definition init_latent_sites (t : SVTypes) : PyResult (list string) :=
  match t with
  | DEL =>
      Ok ["pi_sr1"; "pi_sr2"; "pi_pe"; "pi_rd"; "eps_pe"; "eps_sr1"; "eps_sr2";
          "lambda_pe"; "lambda_sr1"; "lambda_sr2"; "phi_pe"; "phi_sr1"; "phi_sr2"]
  | DUP =>
      Ok ["pi_sr1"; "pi_sr2"; "pi_pe"; "pi_rd"; "eps_pe"; "eps_sr1"; "eps_sr2";
          "lambda_pe"; "lambda_sr1"; "lambda_sr2"; "phi_pe"; "phi_sr1"; "phi_sr2"]
  | INS =>
      Ok ["pi_sr1"; "pi_sr2"; "eps_sr1"; "eps_sr2";
          "lambda_sr1"; "lambda_sr2"; "phi_sr1"; "phi_sr2"]
  | INV =>
      Ok ["pi_sr1"; "pi_sr2"; "pi_pe"; "eps_pe"; "eps_sr1"; "eps_sr2";
          "lambda_pe"; "lambda_sr1"; "lambda_sr2"; "phi_pe"; "phi_sr1"; "phi_sr2"]
  | OTHER _ => unsupported_svtype t
  end.

(** The third chain, appending the rate sites or rejecting [k]. *)
Definition init_eta_sites (kv : Z) (sites : list string) : PyResult (list string) :=
  if bool_decide (kv = 3%Z) then Ok (sites ++ ["eta_q"])
  else if bool_decide (kv = 5%Z) then Ok ((sites ++ ["eta_q"]) ++ ["eta_r"])
  else Raise (ValueError ("Unsupported number of states: " +:+ pretty kv)).

(** [SVGenotyperPyroModel.__init__].  The heap is threaded through because
    of the [loss] dictionary; a raised exception discards the object under
    construction. *)
Definition __init__ (t : SVTypes) (k_arg : option Z) (hy : Hyper)
    (dev : string) (loss_arg : option loc) (h : gmap loc PyObj)
  : PyResult (SVGenotyperPyroModel * gmap loc PyObj) :=
  let '(l, h') := init_loss loss_arg h in
  match init_k t k_arg with
  | Raise e => Raise e
  | Ok kv =>
      match init_latent_sites t with
      | Raise e => Raise e
      | Ok sites =>
          match init_eta_sites kv sites with
          | Raise e => Raise e
          | Ok sites' =>
              Ok ({| mu_eps_pe := h_mu_eps_pe hy;
                     mu_eps_sr1 := h_mu_eps_sr1 hy;
                     mu_eps_sr2 := h_mu_eps_sr2 hy;
                     mu_lambda_pe := h_mu_lambda_pe hy;
                     mu_lambda_sr1 := h_mu_lambda_sr1 hy;
                     mu_lambda_sr2 := h_mu_lambda_sr2 hy;
                     var_phi_pe := h_var_phi_pe hy;
                     var_phi_sr1 := h_var_phi_sr1 hy;
                     var_phi_sr2 := h_var_phi_sr2 hy;
                     mu_eta_q := h_mu_eta_q hy;
                     mu_eta_r := h_mu_eta_r hy;
                     svtype := t;
                     device := dev;
                     loss := l;
                     k := kv;
                     latent_sites := sites' |}, h')
          end
      end
  end.

(** ** SVGenotyperData

    The evidence tensors of one call.  The variant and sample axes are
    index functions over the stated extents; the genotype-state axis of
    [rd_gt_prob_t] is a list (one row of [K] weights per variant and
    sample, as the spec's EvidenceBundle has it; rows of another length
    would go through torch's broadcasting rules, which are not modelled). *)
Record SVGenotyperData : Type := {
  n_variants : nat;          (* data_pe.shape[0] *)
  n_samples : nat;           (* data_pe.shape[1] *)
  pe_t : nat -> nat -> R;
  sr1_t : nat -> nat -> R;
  sr2_t : nat -> nat -> R;
  depth_t : nat -> nat -> R;
  rd_gt_prob_t : nat -> nat -> list R
}.

(** ** Tensor arithmetic *)

(** The result of a torch division: real arithmetic, except that a zero
    divisor gives the IEEE special values instead of an exception. *)
Inductive TFloat : Type :=
  | Fin (r : R)
  | PosInf
  | NegInf
  | NaN.

Definition torch_div (a b : R) : TFloat :=
  if Req_dec_T b 0 then
    if Req_dec_T a 0 then NaN
    else if Rlt_dec 0 a then PosInf else NegInf
  else Fin (a / b).

Definition b2r (b : bool) : R := if b then 1%R else 0%R.

Definition Rsum (l : list R) : R := foldr Rplus 0%R l.

(** Moments of [torch.distributions.NegativeBinomial(total_count, probs)]
    as that library defines them: mean [total_count * probs / (1 - probs)]
    and variance [mean / (1 - probs)]. *)
Definition NegativeBinomial_mean (total_count probs : R) : R :=
  (total_count * (probs / (1 - probs)))%R.

Definition NegativeBinomial_variance (total_count probs : R) : R :=
  (NegativeBinomial_mean total_count probs / (1 - probs))%R.

(** ** The body of [model] *)

(** The evidence channels with a negative-binomial emission. *)
Inductive Channel : Type := PE | SR1 | SR2.

#[global] Instance Channel_eq_dec : EqDecision Channel.
Proof. solve_decision. Defined.

(** The values of the sample sites of one execution of [model]: globals,
    per-variant sites (indexed by the variant) and the per-cell state. *)
Record Sites : Type := {
  s_pi_sr1 : R;
  s_pi_sr2 : R;
  s_lambda_sr1 : R;
  s_lambda_sr2 : R;
  s_pi_rd : R;
  s_pi_pe : R;
  s_lambda_pe : R;
  s_m_rd : nat -> bool;
  s_phi_pe : nat -> R;
  s_eps_pe : nat -> R;
  s_m_pe : nat -> bool;
  s_phi_sr1 : nat -> R;
  s_phi_sr2 : nat -> R;
  s_eps_sr1 : nat -> R;
  s_eps_sr2 : nat -> R;
  s_m_sr1 : nat -> bool;
  s_m_sr2 : nat -> bool;
  s_eta_q : nat -> R;
  s_eta_r : nat -> R;
  s_z : nat -> nat -> nat
}.

Section GenotypePrior.
Local Open Scope R_scope.

(** The [self.k == 3] branch, over the reals: the rounding and the
    underflow of [exp] in floating point are not represented. *)
Definition z_prior_k3 (eta_q : R) : list R :=
  let q := 1 - exp (- eta_q) in
  let p := 1 - q in
  let z0 := p * p in
  let z1 := 2 * p * q in
  let z2 := q * q in
  [z0; z1; z2].

(** The [self.k == 5] branch. *)
Definition z_prior_k5 (eta_q eta_r : R) : list R :=
  let q := 1 - exp (- eta_q) in
  let r := (1 - q) * (1 - exp (- eta_r)) in
  let p := 1 - q - r in
  let z0 := p * p in
  let z1 := 2 * q * p in
  let z2 := 2 * p * r + q * q in
  let z3 := 2 * q * r in
  let z4 := r * r in
  [z0; z1; z2; z3; z4].

(** [var = mu * (1 + lambda)], [r = mu * mu / (var - mu)],
    [p = (var - mu) / var], shared by the three channels; over the reals,
    so that [1 + lambda] is never rounded to 1. *)
Definition nb_var (mu lam : R) : R := mu * (1 + lam).

Definition nb_total_count (mu lam : R) : TFloat :=
  torch_div (mu * mu) (nb_var mu lam - mu).

Definition nb_probs (mu lam : R) : TFloat :=
  torch_div (nb_var mu lam - mu) (nb_var mu lam).
End GenotypePrior.

Section Model.
Local Open Scope R_scope.

Variable self : SVGenotyperPyroModel.
Variable sites : Sites.
Variable data : SVGenotyperData.

(** [torch.arange(0, self.k)] as floats. *)
Definition k_range_t : list R := map INR (seq 0 (Z.to_nat (k self))).

Definition has_rd : bool :=
  bool_decide (svtype self = DEL) || bool_decide (svtype self = DUP).

Definition has_pe : bool := bool_decide (svtype self <> INS).

(** The emissions [model] evaluates: [pe_obs] only outside Insertion. *)
Definition channels : list Channel :=
  (if has_pe then [PE] else []) ++ [SR1; SR2].

(** Overdispersion: the Exponential site scaled by its hyperparameter. *)
Definition lambda (ch : Channel) : R :=
  match ch with
  | PE => s_lambda_pe sites * mu_lambda_pe self
  | SR1 => s_lambda_sr1 sites * mu_lambda_sr1 self
  | SR2 => s_lambda_sr2 sites * mu_lambda_sr2 self
  end.

(** [m_rd]: the Bernoulli site for Deletion and Duplication, else zeros. *)
Definition m_rd (v : nat) : R :=
  if has_rd then b2r (s_m_rd sites v) else 0.

(** The support indicator of a channel; [m_pe] is zeros for Insertion. *)
Definition m (ch : Channel) (v : nat) : R :=
  match ch with
  | PE => if has_pe then b2r (s_m_pe sites v) else 0
  | SR1 => b2r (s_m_sr1 sites v)
  | SR2 => b2r (s_m_sr2 sites v)
  end.

Definition phi (ch : Channel) (v : nat) : R :=
  match ch with
  | PE => s_phi_pe sites v
  | SR1 => s_phi_sr1 sites v
  | SR2 => s_phi_sr2 sites v
  end.

Definition eps (ch : Channel) (v : nat) : R :=
  match ch with
  | PE => s_eps_pe sites v * mu_eps_pe self
  | SR1 => s_eps_sr1 sites v * mu_eps_sr1 self
  | SR2 => s_eps_sr2 sites v * mu_eps_sr2 self
  end.

Definition eta_q (v : nat) : R := s_eta_q sites v * mu_eta_q self.
Definition eta_r (v : nat) : R := s_eta_r sites v * mu_eta_r self.

(** The derived genotype-state prior of variant [v]. *)
Definition z_prior (v : nat) : PyResult (list R) :=
  if bool_decide (k self = 3%Z) then Ok (z_prior_k3 (eta_q v))
  else if bool_decide (k self = 5%Z) then Ok (z_prior_k5 (eta_q v) (eta_r v))
  else Raise (ValueError ("Unsupported number of states K = " +:+ pretty (k self))).

(** [m1_locs], [m0_locs] and [locs] of a channel, along the state axis. *)
Definition m1_locs (ch : Channel) (v : nat) : list R :=
  map (fun kr => phi ch v * kr + eps ch v) k_range_t.

Definition m0_locs (ch : Channel) (v : nat) : list R :=
  map (fun _ => eps ch v) k_range_t.

Definition locs (ch : Channel) (v : nat) : list R :=
  zip_with (fun l0 l1 => (1 - m ch v) * l0 + m ch v * l1)
           (m0_locs ch v) (m1_locs ch v).

(** [m_rd.unsqueeze(-1) * rd_gt_prob_t + (1. - m_rd.unsqueeze(-1)) * z_prior],
    for a row of [rd_gt_prob_t] with as many entries as the prior (with
    another length torch raises or broadcasts, which is not represented). *)
Definition z_weights (v s : nat) : PyResult (list R) :=
  match z_prior v with
  | Raise e => Raise e
  | Ok prior =>
      Ok (zip_with (fun rd pr => m_rd v * rd + (1 - m_rd v) * pr)
                   (rd_gt_prob_t data v s) prior)
  end.

(** [depth_t * Vindex(locs)[..., z]] at a cell whose state is [zv];
    [None] stands for the index error of a state outside the axis. *)
Definition mu_obs (ch : Channel) (v s zv : nat) : option R :=
  match locs ch v !! zv with
  | Some l => Some (depth_t data v s * l)
  | None => None
  end.

(** The [total_count] and [probs] handed to [NegativeBinomial]. *)
Definition r_obs (ch : Channel) (v s zv : nat) : option TFloat :=
  match mu_obs ch v s zv with
  | Some mu => Some (nb_total_count mu (lambda ch))
  | None => None
  end.

Definition p_obs (ch : Channel) (v s zv : nat) : option TFloat :=
  match mu_obs ch v s zv with
  | Some mu => Some (nb_probs mu (lambda ch))
  | None => None
  end.

(** The [(total_count, probs)] of the cell's emission in this execution,
    where the state is the value of site [z]; [None] as well for a
    channel whose emission [model] does not evaluate. *)
Definition emission (ch : Channel) (v s : nat) : option (TFloat * TFloat) :=
  if bool_decide (ch ∈ channels) then
    match r_obs ch v s (s_z sites v s), p_obs ch v s (s_z sites v s) with
    | Some r, Some p => Some (r, p)
    | _, _ => None
    end
  else None.

(** The value ranges that the data model of the spec (section 3) gives the
    quantities of a cell: positive depth and effect sizes, non-negative
    noise rates and overdispersions, K of 3 or 5 and a state below K. *)
Definition in_domain (v s : nat) : Prop :=
  0 < depth_t data v s /\
  (forall ch, 0 <= lambda ch /\ 0 < phi ch v /\ 0 <= eps ch v) /\
  (k self = 3%Z \/ k self = 5%Z) /\
  (s_z sites v s < Z.to_nat (k self))%nat.
End Model.

Definition is_finite (x : TFloat) : bool :=
  match x with Fin _ => true | _ => false end.

(** ** Tensors returned by the inference drivers *)

(** A dense tensor: its shape and its entries in row-major order. *)
Record Tensor (A : Type) : Type := {
  shape : list nat;
  elems : list A
}.
Arguments shape {A} t.
Arguments elems {A} t.

Definition numel (sh : list nat) : nat := foldr Nat.mul 1 sh.

(** A [rows x cols] tensor given by its entries. *)
Definition tabulate2 {A} (rows cols : nat) (f : nat -> nat -> A) : Tensor A :=
  {| shape := [rows; cols];
     elems := flat_map (fun i => map (f i) (seq 0 cols)) (seq 0 rows) |}.

(** Leading axes of extent 1 removed.  Pyro's [infer_discrete] returns the
    value of an enumerated site without the plate axes of extent 1 that lie
    to the left of its first larger axis (a 0-d tensor when every plate has
    extent 1). *)
Fixpoint squeeze_leading (sh : list nat) : list nat :=
  match sh with
  | 1 :: rest => squeeze_leading rest
  | _ => sh
  end.

(** The value of a site of a [rows x cols] plate grid in such a trace. *)
Definition plate_tensor {A} (rows cols : nat) (f : nat -> nat -> A) : Tensor A :=
  {| shape := squeeze_leading [rows; cols];
     elems := elems (tabulate2 rows cols f) |}.

(** [torch.stack(ts, dim=0)]. *)
Definition stack {A} (ts : list (Tensor A)) : PyResult (Tensor A) :=
  match ts with
  | [] => Raise (RuntimeError "stack expects a non-empty TensorList")
  | t :: rest =>
      if forallb (fun t' => bool_decide (shape t' = shape t)) rest
      then Ok {| shape := length ts :: shape t;
                 elems := concat (map elems ts) |}
      else Raise (RuntimeError "stack expects each tensor to be equal size")
  end.

(** [np.zeros(sh)] (and an expanded [torch.zeros]). *)
Definition zeros {A} (zero : A) (sh : list nat) : Tensor A :=
  {| shape := sh; elems := replicate (numel sh) zero |}.

(** [t.shape[i]]. *)
Definition shape_at {A} (t : Tensor A) (i : nat) : PyResult nat :=
  match shape t !! i with
  | Some n => Ok n
  | None => Raise (IndexError "tuple index out of range")
  end.

(** [t[i, ...]]. *)
Definition slice0 {A} (t : Tensor A) (i : nat) : PyResult (Tensor A) :=
  match shape t with
  | n :: sh =>
      if bool_decide (i < n)
      then Ok {| shape := sh;
                 elems := take (numel sh) (drop (i * numel sh) (elems t)) |}
      else Raise (IndexError "index out of bounds")
  | [] => Raise (IndexError "too many indices for tensor of dimension 0")
  end.

(** ** Dictionaries and lists of the drivers *)

(** [d[key]] *)
Definition py_getitem {V} (d : gmap string V) (key : string) : PyResult V :=
  match d !! key with
  | Some v => Ok v
  | None => Raise (KeyError key)
  end.

(** [xs[i]] *)
Definition py_index {V} (xs : list V) (i : nat) : PyResult V :=
  match xs !! i with
  | Some v => Ok v
  | None => Raise (IndexError "list index out of range")
  end.

(** [o[key]] where [o] may be [None]. *)
Definition py_subscript {V} (o : option (gmap string V)) (key : string) : PyResult V :=
  match o with
  | None => Raise (TypeError "'NoneType' object is not subscriptable")
  | Some d => py_getitem d key
  end.

(** [[f(x) for x in xs]], stopping at the first exception. *)
Fixpoint list_comprehension {A B} (xs : list A) (f : A -> PyResult B)
  : PyResult (list B) :=
  match xs with
  | [] => Ok []
  | x :: rest =>
      match f x with
      | Raise e => Raise e
      | Ok y =>
          match list_comprehension rest f with
          | Raise e => Raise e
          | Ok ys => Ok (y :: ys)
          end
      end
  end.

(** [{key: f(key) for key in keys}], a later key overriding an earlier. *)
Fixpoint dict_comprehension_acc {V} (keys : list string) (f : string -> PyResult V)
    (acc : gmap string V) : PyResult (gmap string V) :=
  match keys with
  | [] => Ok acc
  | key :: rest =>
      match f key with
      | Raise e => Raise e
      | Ok v => dict_comprehension_acc rest f (<[key := v]> acc)
      end
  end.

Definition dict_comprehension {V} (keys : list string) (f : string -> PyResult V)
  : PyResult (gmap string V) :=
  dict_comprehension_acc keys f ∅.

(** ** Effects of the drivers

    The drivers consume randomness (tracing the guide, tracing the
    enumerated model, sampling a negative binomial) and log progress.  The
    random-number state is explicit and every call to one of the three
    sampling operations is recorded. *)

Inductive Event : Type :=
  | GuideTrace
  | ModelTrace
  | NBSample
  | LoggingInfo (msg : string).

#[global] Instance Event_eq_dec : EqDecision Event.
Proof. solve_decision. Defined.

Record World (RNG : Type) : Type := {
  rng : RNG;
  events : list Event
}.
Arguments rng {RNG} w.
Arguments events {RNG} w.

Definition M (RNG A : Type) : Type := World RNG -> PyResult (A * World RNG).

#[global] Instance M_ret {RNG} : MRet (M RNG) :=
  fun A a w => Ok (a, w).

#[global] Instance M_bind {RNG} : MBind (M RNG) :=
  fun A B f c w =>
    match c w with
    | Raise e => Raise e
    | Ok (a, w') => f a w'
    end.

Definition lift {RNG A} (r : PyResult A) : M RNG A :=
  fun w =>
    match r with
    | Raise e => Raise e
    | Ok a => Ok (a, w)
    end.

Definition emit {RNG} (ev : Event) : M RNG unit :=
  fun w => Ok (tt, {| rng := rng w; events := events w ++ [ev] |}).

Definition logging_info {RNG} (msg : string) : M RNG unit :=
  emit (LoggingInfo msg).

(** A sampling operation: advance the random-number state, record it. *)
Definition sample_with {RNG A} (ev : Event) (f : RNG -> A * RNG) : M RNG A :=
  fun w =>
    let '(a, g) := f (rng w) in
    Ok (a, {| rng := g; events := events w ++ [ev] |}).

(** [for x in xs: acc = body(x, acc)] *)
Fixpoint for_each {RNG A S} (xs : list A) (body : A -> S -> M RNG S) (acc : S)
  : M RNG S :=
  match xs with
  | [] => mret acc
  | x :: rest => body x acc ≫= for_each rest body
  end.

(** [range(n)] *)
Definition range (n : Z) : list nat := seq 0 (Z.to_nat n).

(** [if (i + 1) % log_freq == 0: logging.info(fmt.format(i + 1))] *)
Definition log_progress {RNG} (i : nat) (log_freq : Z) (what : string) : M RNG unit :=
  if bool_decide (log_freq = 0%Z)
  then lift (Raise (ZeroDivisionError "integer division or modulo by zero"))
  else if bool_decide (((Z.of_nat i + 1) mod log_freq)%Z = 0%Z)
  then logging_info ("[sample " +:+ pretty (Z.of_nat i + 1)%Z +:+ "] " +:+ what)
  else mret tt.

(** ** Traces of the enumerated model *)

(** One joint draw of the discrete sample sites, as [infer_discrete]
    (pyro) produces it for the replayed model: [z] per variant and sample,
    the support indicators per variant. *)
Record DiscreteDraw : Type := {
  d_z : nat -> nat -> Z;
  d_m_sr1 : nat -> bool;
  d_m_sr2 : nat -> bool;
  d_m_pe : nat -> bool;
  d_m_rd : nat -> bool
}.

Definition b2z (b : bool) : Z := if b then 1%Z else 0%Z.

(** A site of the [variant] plate (dim -2) is sampled outside the [sample]
    plate, like the stand-ins [zero_t.expand(n_variants).unsqueeze(-1)] of
    [model]: with two variants or more its value has shape [V, 1], with one
    variant it is 0-d. *)
Definition variant_site (data : SVGenotyperData) (f : nat -> bool) : Tensor Z :=
  plate_tensor (n_variants data) 1 (fun v _ => b2z (f v)).

(** Site [z] lies in both plates: with two variants or more its value has
    shape [V, S], with one variant [S] (0-d with one sample as well). *)
Definition cell_site (data : SVGenotyperData) (f : nat -> nat -> Z) : Tensor Z :=
  plate_tensor (n_variants data) (n_samples data) f.

(** The discrete sample sites in [trace.nodes]: [m_pe] and [m_rd] are
    sites only where [model] samples them. *)
Definition trace_nodes (self : SVGenotyperPyroModel) (data : SVGenotyperData)
    (d : DiscreteDraw) : gmap string (Tensor Z) :=
  let nodes : gmap string (Tensor Z) :=
    <["m_sr2" := variant_site data (d_m_sr2 d)]>
      (<["m_sr1" := variant_site data (d_m_sr1 d)]>
        {["z" := cell_site data (d_z d)]}) in
  let nodes := if has_pe self
               then <["m_pe" := variant_site data (d_m_pe d)]> nodes else nodes in
  if has_rd self
  then <["m_rd" := variant_site data (d_m_rd d)]> nodes else nodes.

(** [trace.nodes["_RETURN"]["value"]]: the value [model] returns.  The body
    of [model] ends with the [sr2_obs] sample statement and has no
    [return], so the call evaluates to [None]. *)
Definition model_return : option (gmap string (Tensor TFloat)) := None.

Record Trace : Type := {
  nodes : gmap string (Tensor Z);
  return_value : option (gmap string (Tensor TFloat))
}.

(** The keys read from the return value, in the order of the source. *)
Definition full_keys : list string :=
  ["z"; "r_pe"; "r_sr1"; "r_sr2"; "p_pe"; "p_sr1"; "p_sr2";
   "m_pe"; "m_sr1"; "m_sr2"; "m_rd"].

(** The [sites] list of [infer_discrete]. *)
Definition discrete_sites (svtype_arg : SVTypes) : list string :=
  let sites := ["z"; "m_sr1"; "m_sr2"] in
  let sites :=
    if bool_decide (svtype_arg = DEL) || bool_decide (svtype_arg = DUP)
       || bool_decide (svtype_arg = INV)
    then sites ++ ["m_pe"] else sites in
  if bool_decide (svtype_arg = DEL) || bool_decide (svtype_arg = DUP)
  then sites ++ ["m_rd"] else sites.

(** The tail of [infer_discrete]: stack the per-draw dictionaries per site
    and fill the channels that were not requested with zeros. *)
Definition stack_sites (sites : list string) (n_draws : Z)
    (posterior_samples : list (gmap string (Tensor Z)))
  : PyResult (gmap string (Tensor Z)) :=
  dict_comprehension sites (fun site =>
    match list_comprehension (range n_draws) (fun i =>
            match py_index posterior_samples i with
            | Raise e => Raise e
            | Ok sample => py_getitem sample site
            end) with
    | Raise e => Raise e
    | Ok ts => stack ts
    end).

Definition discrete_result (posterior_samples : gmap string (Tensor Z))
  : PyResult (gmap string (Tensor Z)) :=
  match py_getitem posterior_samples "z" with
  | Raise e => Raise e
  | Ok z =>
  match py_getitem posterior_samples "m_sr1" with
  | Raise e => Raise e
  | Ok m_sr1 =>
  match py_getitem posterior_samples "m_sr2" with
  | Raise e => Raise e
  | Ok m_sr2 =>
      let m_pe := match posterior_samples !! "m_pe" with
                  | Some t => t
                  | None => zeros 0%Z (shape m_sr1)
                  end in
      let m_rd := match posterior_samples !! "m_rd" with
                  | Some t => t
                  | None => zeros 0%Z (shape m_sr1)
                  end in
      Ok (<["m_rd" := m_rd]> (<["m_sr2" := m_sr2]> (<["m_sr1" := m_sr1]>
           (<["m_pe" := m_pe]> {["z" := z]}))))
  end end end.

Section Inference.
(** The random-number state, the values of the continuous latent sites in
    a guide trace, and the three sampling operations of the libraries:
    tracing the fitted guide, tracing the enumerated model replayed
    against a guide trace, and sampling a negative binomial. *)
Variable RNG : Type.
Variable Cont : Type.
Variable run_guide : SVGenotyperPyroModel -> SVGenotyperData -> RNG -> Cont * RNG.
Variable run_discrete :
  SVGenotyperPyroModel -> Cont -> SVGenotyperData -> RNG -> DiscreteDraw * RNG.
Variable nb_sample : Tensor TFloat -> Tensor TFloat -> RNG -> Tensor TFloat * RNG.

(** [poutine.trace(self.guide).get_trace(...)] *)
Definition guide_get_trace (self : SVGenotyperPyroModel) (data : SVGenotyperData)
  : M RNG Cont :=
  sample_with GuideTrace (run_guide self data).

(** [poutine.trace(infer_discrete(trained_model, ...)).get_trace(...)]
    where [trained_model] replays [guide_trace].  The trace is taken to
    succeed: an execution of [model] that raises inside the libraries (an
    [rd_gt_prob] row whose length is not K, parameters that a distribution
    rejects) is not represented, so what is proved of a call that returns
    speaks of the calls whose traces succeed. *)
Definition inferred_get_trace (self : SVGenotyperPyroModel) (guide_trace : Cont)
    (data : SVGenotyperData) : M RNG Trace :=
  d ← sample_with ModelTrace (run_discrete self guide_trace data);
  mret {| nodes := trace_nodes self data d; return_value := model_return |}.

(** [NegativeBinomial(total_count=r, probs=p).sample()] *)
Definition NegativeBinomial_sample (r p : Tensor TFloat) : M RNG (Tensor TFloat) :=
  sample_with NBSample (nb_sample r p).

(** The body of the sampling loop of [infer_discrete]. *)
Definition infer_discrete_body (self : SVGenotyperPyroModel) (guide_trace : Cont)
    (data : SVGenotyperData) (sites : list string) (log_freq : Z)
    (i : nat) (posterior_samples : list (gmap string (Tensor Z)))
  : M RNG (list (gmap string (Tensor Z))) :=
  trace ← inferred_get_trace self guide_trace data;
  sample ← lift (dict_comprehension sites (py_getitem (nodes trace)));
  let posterior_samples := posterior_samples ++ [sample] in
  log_progress i log_freq "discrete latent";;
  mret posterior_samples.

(** [SVGenotyperPyroModel.infer_discrete]; [n_draws] is its parameter
    [n_samples], the number of posterior draws. *)
Definition infer_discrete (self : SVGenotyperPyroModel) (data : SVGenotyperData)
    (svtype_arg : SVTypes) (log_freq : Z) (n_draws : Z)
  : M RNG (gmap string (Tensor Z)) :=
  logging_info "Running discrete inference...";;
  let sites := discrete_sites svtype_arg in
  guide_trace ← guide_get_trace self data;
  posterior_samples ←
    for_each (range n_draws)
             (infer_discrete_body self guide_trace data sites log_freq) [];
  stacked ← lift (stack_sites sites n_draws posterior_samples);
  logging_info "Inference complete.";;
  lift (discrete_result stacked).

(** [[torch.stack([posterior_samples[j][i] for j in range(n_samples)], dim=0)
      for i in range(11)]] *)
Definition stack_columns (n_draws : Z) (posterior_samples : list (list (Tensor TFloat)))
  : PyResult (list (Tensor TFloat)) :=
  list_comprehension (seq 0 11) (fun i =>
    match list_comprehension (range n_draws) (fun j =>
            match py_index posterior_samples j with
            | Raise e => Raise e
            | Ok row => py_index row i
            end) with
    | Raise e => Raise e
    | Ok ts => stack ts
    end).

(** One [samples.append(NegativeBinomial(r[i, ...], p[i, ...]).sample())]. *)
Definition append_nb_sample (r p : Tensor TFloat) (i : nat)
    (samples : list (Tensor TFloat)) : M RNG (list (Tensor TFloat)) :=
  ri ← lift (slice0 r i);
  pi ← lift (slice0 p i);
  x ← NegativeBinomial_sample ri pi;
  mret (samples ++ [x]).

(** The body of the first loop of [infer_discrete_full]. *)
Definition infer_discrete_full_body (self : SVGenotyperPyroModel)
    (guide_trace : Cont) (data : SVGenotyperData) (log_freq : Z)
    (i : nat) (posterior_samples : list (list (Tensor TFloat)))
  : M RNG (list (list (Tensor TFloat))) :=
  trace ← inferred_get_trace self guide_trace data;
  entry ← lift (list_comprehension full_keys (py_subscript (return_value trace)));
  let posterior_samples := posterior_samples ++ [entry] in
  log_progress i log_freq "discrete latent";;
  mret posterior_samples.

(** [SVGenotyperPyroModel.infer_discrete_full] *)
Definition infer_discrete_full (self : SVGenotyperPyroModel) (data : SVGenotyperData)
    (svtype_arg : SVTypes) (log_freq : Z) (n_draws : Z)
  : M RNG (gmap string (Tensor TFloat)) :=
  logging_info "Running discrete inference...";;
  guide_trace ← guide_get_trace self data;
  posterior_samples ←
    for_each (range n_draws)
             (infer_discrete_full_body self guide_trace data log_freq) [];
  posterior_samples ← lift (stack_columns n_draws posterior_samples);
  z ← lift (py_index posterior_samples 0);
  r_pe ← lift (py_index posterior_samples 1);
  r_sr1 ← lift (py_index posterior_samples 2);
  r_sr2 ← lift (py_index posterior_samples 3);
  p_pe ← lift (py_index posterior_samples 4);
  p_sr1 ← lift (py_index posterior_samples 5);
  p_sr2 ← lift (py_index posterior_samples 6);
  m_pe ← lift (py_index posterior_samples 7);
  m_sr1 ← lift (py_index posterior_samples 8);
  m_sr2 ← lift (py_index posterior_samples 9);
  m_rd ← lift (py_index posterior_samples 10);
  samples ←
    for_each (range n_draws) (fun i (samples : list (Tensor TFloat) * list (Tensor TFloat)
                                                * list (Tensor TFloat)) =>
      let '(samples_pe, samples_sr1, samples_sr2) := samples in
      samples_pe ←
        (if bool_decide (svtype_arg = INS)
         then d0 ← lift (shape_at r_pe 0);
              d1 ← lift (shape_at r_pe 1);
              mret (samples_pe ++ [zeros (Fin 0) [d0; d1]])
         else append_nb_sample r_pe p_pe i samples_pe);
      samples_sr1 ← append_nb_sample r_sr1 p_sr1 i samples_sr1;
      samples_sr2 ← append_nb_sample r_sr2 p_sr2 i samples_sr2;
      log_progress i log_freq "discrete observed";;
      mret (samples_pe, samples_sr1, samples_sr2)) ([], [], []);
  let '(samples_pe, samples_sr1, samples_sr2) := samples in
  pe ← lift (stack samples_pe);
  sr1 ← lift (stack samples_sr1);
  sr2 ← lift (stack samples_sr2);
  logging_info "Inference complete.";;
  mret (<["m_rd" := m_rd]> (<["m_sr2" := m_sr2]> (<["m_sr1" := m_sr1]>
         (<["m_pe" := m_pe]> (<["sr2" := sr2]> (<["sr1" := sr1]>
         (<["pe" := pe]> {["z" := z]}))))))).

(** The procedure as the spec words it for the DiscreteLatentInferencer
    ("Algorithm, per draw"): every draw first takes a guide trace of its
    own (step 1), then enumerates and samples the discrete sites against
    it (steps 2 and 3); the draws are stacked per site (step 4). *)
Definition spec_infer_discrete (self : SVGenotyperPyroModel) (data : SVGenotyperData)
    (svtype_arg : SVTypes) (n_draws : Z)
  : M RNG (gmap string (Tensor Z)) :=
  let sites := discrete_sites svtype_arg in
  posterior_samples ←
    for_each (range n_draws) (fun i posterior_samples =>
      guide_trace ← guide_get_trace self data;
      trace ← inferred_get_trace self guide_trace data;
      sample ← lift (dict_comprehension sites (py_getitem (nodes trace)));
      mret (posterior_samples ++ [sample])) [];
  stacked ← lift (stack_sites sites n_draws posterior_samples);
  lift (discrete_result stacked).
End Inference.

(** The value a driver returns, without the final world. *)
Definition returned {A W} (r : PyResult (A * W)) : PyResult A :=
  match r with
  | Ok (a, _) => Ok a
  | Raise e => Raise e
  end.

(** The shape and the entries of one array of a returned dictionary. *)
Definition result_shape {A} (r : PyResult (gmap string (Tensor A))) (site : string)
  : option (list nat) :=
  match r with
  | Ok out => shape <$> out !! site
  | Raise _ => None
  end.

Definition result_elems {A} (r : PyResult (gmap string (Tensor A))) (site : string)
  : option (list A) :=
  match r with
  | Ok out => elems <$> out !! site
  | Raise _ => None
  end.

(** The shape of a discrete site in one trace. *)
Definition site_shape (data : SVGenotyperData) (site : string) : list nat :=
  squeeze_leading
    (if bool_decide (site = "z") then [n_variants data; n_samples data]
     else [n_variants data; 1]).

(** The number of guide traces taken in a run. *)
Definition guide_traces (evs : list Event) : nat :=
  length (filter (fun ev => ev = GuideTrace) evs).

Definition model_traces (evs : list Event) : nat :=
  length (filter (fun ev => ev = ModelTrace) evs).

(** ** The sample sites of [model] *)

Inductive SiteKind : Type := Continuous | Discrete | Observed.

#[global] Instance SiteKind_eq_dec : EqDecision SiteKind.
Proof. solve_decision. Defined.

(** The [pyro.sample] statements that an execution of [model] reaches, in
    program order: Beta, Exponential and LogNormal sites are continuous,
    Bernoulli and Categorical sites discrete, sites with [obs=] observed.
    With K outside 3 and 5 the execution stops after [eta_q]. *)
Definition model_sites (self : SVGenotyperPyroModel) : list (string * SiteKind) :=
  [("pi_sr1", Continuous); ("pi_sr2", Continuous);
   ("lambda_sr1", Continuous); ("lambda_sr2", Continuous)]
  ++ (if has_rd self then [("pi_rd", Continuous)] else [])
  ++ (if has_pe self then [("pi_pe", Continuous); ("lambda_pe", Continuous)] else [])
  ++ (if has_rd self then [("m_rd", Discrete)] else [])
  ++ (if has_pe self
      then [("phi_pe", Continuous); ("eps_pe", Continuous); ("m_pe", Discrete)]
      else [])
  ++ [("phi_sr1", Continuous); ("phi_sr2", Continuous);
      ("eps_sr1", Continuous); ("eps_sr2", Continuous);
      ("m_sr1", Discrete); ("m_sr2", Discrete);
      ("eta_q", Continuous)]
  ++ (let emissions :=
        [("z", Discrete)]
        ++ (if has_pe self then [("pe_obs", Observed)] else [])
        ++ [("sr1_obs", Observed); ("sr2_obs", Observed)] in
      if bool_decide (k self = 3%Z) then emissions
      else if bool_decide (k self = 5%Z) then ("eta_r", Continuous) :: emissions
      else []).

Definition sites_of_kind (kind : SiteKind) (self : SVGenotyperPyroModel) : list string :=
  (filter (fun site => site.2 = kind) (model_sites self)).*1.

(** ** Successive draws of the enumerated model *)

(** The draws of [n] successive traces of the enumerated model replayed
    against the guide trace [c], and the random-number state they leave. *)
Fixpoint discrete_draws {RNG Cont : Type}
    (run_discrete :
       SVGenotyperPyroModel -> Cont -> SVGenotyperData -> RNG -> DiscreteDraw * RNG)
    (self : SVGenotyperPyroModel) (c : Cont) (data : SVGenotyperData)
    (n : nat) (g : RNG) : list DiscreteDraw * RNG :=
  match n with
  | 0 => ([], g)
  | S n' =>
      let '(d, g1) := run_discrete self c data g in
      let '(ds, g2) := discrete_draws run_discrete self c data n' g1 in
      (d :: ds, g2)
  end.

(** The tensor of a discrete site in the trace of draw [d]. *)
Definition site_tensor (data : SVGenotyperData) (site : string) (d : DiscreteDraw)
  : Tensor Z :=
  if bool_decide (site = "z") then cell_site data (d_z d)
  else if bool_decide (site = "m_sr1") then variant_site data (d_m_sr1 d)
  else if bool_decide (site = "m_sr2") then variant_site data (d_m_sr2 d)
  else if bool_decide (site = "m_pe") then variant_site data (d_m_pe d)
  else variant_site data (d_m_rd d).

(** The draws of one site stacked along a new leading axis. *)
Definition stacked_site (data : SVGenotyperData) (site : string)
    (ds : list DiscreteDraw) : Tensor Z :=
  {| shape := length ds :: site_shape data site;
     elems := concat (map (fun d => elems (site_tensor data site d)) ds) |}.

(** The requested class asks only for sites that the model samples. *)
Definition sites_available (self : SVGenotyperPyroModel) (svtype_arg : SVTypes) : Prop :=
  ("m_pe" ∈ discrete_sites svtype_arg -> has_pe self = true) /\
  ("m_rd" ∈ discrete_sites svtype_arg -> has_rd self = true).

(** The prior scale of a channel's overdispersion among the keyword
    arguments of [__init__]. *)
Definition h_mu_lambda (hy : Hyper) (ch : Channel) : R :=
  match ch with
  | PE => h_mu_lambda_pe hy
  | SR1 => h_mu_lambda_sr1 hy
  | SR2 => h_mu_lambda_sr2 hy
  end.

(** Whether [site] is a discrete sample site in a trace of the model. *)
Definition site_in_trace (self : SVGenotyperPyroModel) (site : string) : bool :=
  bool_decide (site = "z") || bool_decide (site = "m_sr1")
  || bool_decide (site = "m_sr2")
  || (bool_decide (site = "m_pe") && has_pe self)
  || (bool_decide (site = "m_rd") && has_rd self).

(** The default keyword arguments, but with the overdispersion scale of
    the first split-read channel at zero. *)
Definition zero_lambda_hyper : Hyper := {|
  h_mu_eps_pe := 0.1; h_mu_eps_sr1 := 0.1; h_mu_eps_sr2 := 0.1;
  h_mu_lambda_pe := 0.1; h_mu_lambda_sr1 := 0; h_mu_lambda_sr2 := 0.1;
  h_var_phi_pe := 0.1; h_var_phi_sr1 := 0.1; h_var_phi_sr2 := 0.1;
  h_mu_eta_q := 0.1; h_mu_eta_r := 0.01
|}%R.

(** ** Sample inputs *)

(** Sites with the same values in every channel and at every variant. *)
Definition uniform_sites (lam ep ph : R) (mb : bool) (zv : nat) : Sites := {|
  s_pi_sr1 := 0.5; s_pi_sr2 := 0.5;
  s_lambda_sr1 := lam; s_lambda_sr2 := lam;
  s_pi_rd := 0.5; s_pi_pe := 0.5; s_lambda_pe := lam;
  s_m_rd := fun _ => mb;
  s_phi_pe := fun _ => ph; s_eps_pe := fun _ => ep; s_m_pe := fun _ => mb;
  s_phi_sr1 := fun _ => ph; s_phi_sr2 := fun _ => ph;
  s_eps_sr1 := fun _ => ep; s_eps_sr2 := fun _ => ep;
  s_m_sr1 := fun _ => mb; s_m_sr2 := fun _ => mb;
  s_eta_q := fun _ => 1; s_eta_r := fun _ => 1;
  s_z := fun _ _ => zv
|}%R.

(** A model object with the default hyperparameters. *)
Definition model_with (t : SVTypes) (kv : Z) (ss : list string) (l : loc)
  : SVGenotyperPyroModel := {|
  mu_eps_pe := h_mu_eps_pe default_hyper;
  mu_eps_sr1 := h_mu_eps_sr1 default_hyper;
  mu_eps_sr2 := h_mu_eps_sr2 default_hyper;
  mu_lambda_pe := h_mu_lambda_pe default_hyper;
  mu_lambda_sr1 := h_mu_lambda_sr1 default_hyper;
  mu_lambda_sr2 := h_mu_lambda_sr2 default_hyper;
  var_phi_pe := h_var_phi_pe default_hyper;
  var_phi_sr1 := h_var_phi_sr1 default_hyper;
  var_phi_sr2 := h_var_phi_sr2 default_hyper;
  mu_eta_q := h_mu_eta_q default_hyper;
  mu_eta_r := h_mu_eta_r default_hyper;
  svtype := t;
  device := "cpu";
  loss := l;
  k := kv;
  latent_sites := ss
|}.

(** The objects [SVGenotyperPyroModel(SVTypes.DEL)] and
    [SVGenotyperPyroModel(SVTypes.INS)] built in an empty heap. *)
Definition del_model : SVGenotyperPyroModel :=
  model_with DEL 3
    ["pi_sr1"; "pi_sr2"; "pi_pe"; "pi_rd"; "eps_pe"; "eps_sr1"; "eps_sr2";
     "lambda_pe"; "lambda_sr1"; "lambda_sr2"; "phi_pe"; "phi_sr1"; "phi_sr2";
     "eta_q"] 2.

Definition ins_model : SVGenotyperPyroModel :=
  model_with INS 3
    ["pi_sr1"; "pi_sr2"; "eps_sr1"; "eps_sr2";
     "lambda_sr1"; "lambda_sr2"; "phi_sr1"; "phi_sr2"; "eta_q"] 2.

(** A random-number state that counts the draws taken from it, a guide
    whose trace is the state it was drawn at, and a discrete sampler that
    reports the guide trace it was replayed against as the state of every
    cell. *)
Definition counter_guide (self : SVGenotyperPyroModel) (data : SVGenotyperData)
    (g : nat) : nat * nat :=
  (g, S g).

Definition echo_discrete (self : SVGenotyperPyroModel) (guide_trace : nat)
    (data : SVGenotyperData) (g : nat) : DiscreteDraw * nat :=
  ({| d_z := fun _ _ => Z.of_nat guide_trace;
      d_m_sr1 := fun _ => true;
      d_m_sr2 := fun _ => true;
      d_m_pe := fun _ => true;
      d_m_rd := fun _ => true |}, S g).

Definition initial_world : World nat := {| rng := 0; events := [] |}.

(** Evidence with unit depth, zero counts and the same read-depth row in
    every cell. *)
Definition uniform_data (V S : nat) (row : list R) : SVGenotyperData := {|
  n_variants := V; n_samples := S;
  pe_t := fun _ _ => 0%R; sr1_t := fun _ _ => 0%R; sr2_t := fun _ _ => 0%R;
  depth_t := fun _ _ => 1%R;
  rd_gt_prob_t := fun _ _ => row
|}.

(** * Properties *)

(** ** Construction *)

Lemma alloc_lookup (o : PyObj) (h : gmap loc PyObj) :
  (alloc o h).2 !! (alloc o h).1 = Some o.
Proof. unfold alloc. simpl. apply lookup_insert_eq. Qed.

Lemma alloc_fresh (o : PyObj) (h : gmap loc PyObj) :
  (alloc o h).1 ∉ dom h.
Proof. unfold alloc. simpl. apply is_fresh. Qed.

Lemma alloc_preserves (o : PyObj) (h : gmap loc PyObj) (l : loc) (x : PyObj) :
  h !! l = Some x -> (alloc o h).2 !! l = Some x.
Proof.
  intros Hl. unfold alloc. simpl.
  rewrite lookup_insert_ne; [exact Hl|].
  intros Heq. pose proof (is_fresh (dom h)) as Hf.
  rewrite Heq in Hf. apply Hf. apply elem_of_dom. eauto.
Qed.

Lemma init_components t k_arg hy dev loss_arg h self h' :
  __init__ t k_arg hy dev loss_arg h = Ok (self, h') ->
  (init_loss loss_arg h) = (loss self, h') /\ svtype self = t /\
  init_k t k_arg = Ok (k self).
Proof.
  unfold __init__. destruct (init_loss loss_arg h) as [l h0].
  destruct (init_k t k_arg) as [kv|e]; [|discriminate].
  destruct (init_latent_sites t) as [ss|e]; [|discriminate].
  destruct (init_eta_sites kv ss) as [ss'|e]; [|discriminate].
  intros [= <- <-]. simpl. auto.
Qed.

(** C8: an unsupported variant class and an explicit K other than 3 or 5
    are rejected by [__init__] with a [ValueError], so that no model object
    exists on which an inference method could run; a supported class
    without explicit K constructs, with K = 3 for Deletion, Insertion and
    Inversion and K = 5 for Duplication. *)
Theorem init_configuration_error :
  (forall t k_arg hy dev loss_arg h,
      ~ supported t ->
      exists msg, __init__ t k_arg hy dev loss_arg h = Raise (ValueError msg)) /\
  (forall t kv hy dev loss_arg h,
      kv <> 3%Z -> kv <> 5%Z ->
      exists msg, __init__ t (Some kv) hy dev loss_arg h = Raise (ValueError msg)) /\
  (forall t hy dev loss_arg h,
      supported t ->
      exists self h',
        __init__ t None hy dev loss_arg h = Ok (self, h') /\
        svtype self = t /\
        k self = match t with DUP => 5%Z | _ => 3%Z end).
Proof.
  split; [|split].
  - intros t k_arg hy dev loss_arg h Hns.
    destruct t as [| | | |name];
      try (exfalso; apply Hns; unfold supported; tauto).
    unfold __init__. destruct (init_loss loss_arg h) as [l h0].
    destruct k_arg as [kv|]; simpl; eauto.
  - intros t kv hy dev loss_arg h H3 H5.
    unfold __init__. destruct (init_loss loss_arg h) as [l h0]. simpl.
    assert (Heta : forall ss, exists msg,
               init_eta_sites kv ss = Raise (ValueError msg)).
    { intros ss. unfold init_eta_sites.
      rewrite !bool_decide_eq_false_2 by assumption. eauto. }
    destruct t as [| | | |name]; simpl;
      try (match goal with
           | |- context [init_eta_sites kv ?ss] =>
               destruct (Heta ss) as [msg ->]; eauto
           end).
    eauto.
  - intros t hy dev loss_arg h Hs.
    unfold __init__. destruct (init_loss loss_arg h) as [l h0].
    destruct Hs as [-> | [-> | [-> | ->]]]; simpl; eauto.
Qed.

Lemma init_configuration_error_witness :
  (exists msg, __init__ (OTHER "BND") None default_hyper "cpu" None ∅
               = Raise (ValueError msg)) /\
  (exists msg, __init__ DEL (Some 4%Z) default_hyper "cpu" None ∅
               = Raise (ValueError msg)) /\
  (exists self h', __init__ DUP None default_hyper "cpu" None ∅ = Ok (self, h') /\
                   svtype self = DUP /\ k self = 5%Z).
Proof.
  destruct init_configuration_error as [Hclass [Hk Hok]].
  split; [|split].
  - apply Hclass. unfold supported. intros [H | [H | [H | H]]]; discriminate H.
  - apply Hk; lia.
  - apply (Hok DUP). unfold supported. tauto.
Defined.

(** C10: with [loss] omitted or [None] the model's loss trace is a fresh
    dictionary with exactly the keys 'epoch' and 'elbo', each bound to an
    empty list; a supplied loss object is stored by reference, and no
    object is allocated for it. *)
Theorem init_loss_trace t k_arg hy dev loss_arg h self h' :
  __init__ t k_arg hy dev loss_arg h = Ok (self, h') ->
  match loss_arg with
  | None =>
      (loss self ∉ dom h) /\
      exists d l_epoch l_elbo,
        h' !! loss self = Some (PyDict d) /\
        dom d = ({["epoch"; "elbo"]} : gset string) /\
        d !! "epoch" = Some (PyRef l_epoch) /\
        d !! "elbo" = Some (PyRef l_elbo) /\
        h' !! l_epoch = Some (PyList []) /\
        h' !! l_elbo = Some (PyList [])
  | Some l => loss self = l /\ h' = h
  end.
Proof.
  intros Hinit. apply init_components in Hinit as [Hloss _].
  destruct loss_arg as [l|].
  - injection Hloss as <- <-. auto.
  - unfold init_loss in Hloss.
    pose proof (alloc_lookup (PyList []) h) as He.
    destruct (alloc (PyList []) h) as [l_epoch h1] eqn:E1. simpl in He.
    pose proof (alloc_lookup (PyList []) h1) as Hb.
    pose proof (alloc_preserves (PyList []) h1 _ _ He) as He2.
    destruct (alloc (PyList []) h1) as [l_elbo h2] eqn:E2. simpl in Hb, He2.
    set (d := (<["elbo" := PyRef l_elbo]> {["epoch" := PyRef l_epoch]}
                 : gmap string PyVal)) in *.
    pose proof (alloc_lookup (PyDict d) h2) as Hd.
    pose proof (alloc_fresh (PyDict d) h2) as Hfd.
    pose proof (alloc_preserves (PyDict d) h2 _ _ He2) as He3.
    pose proof (alloc_preserves (PyDict d) h2 _ _ Hb) as Hb3.
    rewrite Hloss in Hd, Hfd, He3, Hb3. simpl in Hd, Hfd, He3, Hb3.
    split.
    + intros Hin. apply Hfd.
      assert (Hsub : dom h ⊆ dom h2).
      { unfold alloc in E1, E2. injection E1 as _ <-. injection E2 as _ <-.
        rewrite !dom_insert. set_solver. }
      apply Hsub, Hin.
    + exists d, l_epoch, l_elbo.
      split; [exact Hd|]. split; [|split; [|split; [|split]]].
      * unfold d. rewrite dom_insert_L, dom_singleton_L. set_solver.
      * unfold d. rewrite lookup_insert_ne by discriminate.
        apply lookup_singleton_eq.
      * unfold d. apply lookup_insert_eq.
      * exact He3.
      * exact Hb3.
Qed.

Lemma init_loss_trace_witness :
  (exists self h',
      __init__ DEL None default_hyper "cpu" None ∅ = Ok (self, h') /\
      (loss self ∉ dom (∅ : gmap loc PyObj)) /\
      exists d l_epoch l_elbo,
        h' !! loss self = Some (PyDict d) /\
        dom d = ({["epoch"; "elbo"]} : gset string) /\
        d !! "epoch" = Some (PyRef l_epoch) /\
        d !! "elbo" = Some (PyRef l_elbo) /\
        h' !! l_epoch = Some (PyList []) /\
        h' !! l_elbo = Some (PyList [])) /\
  (exists self h',
      __init__ DEL None default_hyper "cpu" (Some 7%nat) {[7%nat := PyDict ∅]}
        = Ok (self, h') /\
      loss self = 7%nat /\ h' = {[7%nat := PyDict ∅]}).
Proof.
  split.
  - destruct (__init__ DEL None default_hyper "cpu" None ∅) as [[self h']|e] eqn:E;
      [|discriminate E].
    exists self, h'. split; [reflexivity|].
    exact (init_loss_trace DEL None default_hyper "cpu" None ∅ self h' E).
  - destruct (__init__ DEL None default_hyper "cpu" (Some 7%nat) {[7%nat := PyDict ∅]})
      as [[self h']|e] eqn:E; [|discriminate E].
    exists self, h'. split; [reflexivity|].
    exact (init_loss_trace DEL None default_hyper "cpu" (Some 7%nat) _ self h' E).
Defined.

(** ** Genotype-state prior *)

Section PriorFacts.
Local Open Scope R_scope.

Lemma exp_neg_unit (eta : R) : 0 <= eta -> 0 < exp (- eta) <= 1.
Proof.
  intros Heta. split; [apply exp_pos|].
  destruct Heta as [Hlt | <-].
  - left. rewrite <- exp_0. apply exp_increasing. lra.
  - rewrite Ropp_0, exp_0. lra.
Qed.

Lemma z_prior_k3_simplex (eta_q : R) :
  0 <= eta_q ->
  Forall (fun x => 0 <= x) (z_prior_k3 eta_q) /\ Rsum (z_prior_k3 eta_q) = 1.
Proof.
  intros Hq. pose proof (exp_neg_unit eta_q Hq) as [He0 He1].
  unfold z_prior_k3, Rsum. simpl.
  set (e := exp (- eta_q)) in *.
  split; [|ring].
  repeat (apply Forall_cons_2; [nra|]). apply Forall_nil_2.
Qed.

Lemma z_prior_k5_simplex (eta_q eta_r : R) :
  0 <= eta_q -> 0 <= eta_r ->
  Forall (fun x => 0 <= x) (z_prior_k5 eta_q eta_r) /\
  Rsum (z_prior_k5 eta_q eta_r) = 1.
Proof.
  intros Hq Hr.
  pose proof (exp_neg_unit eta_q Hq) as [Hq0 Hq1].
  pose proof (exp_neg_unit eta_r Hr) as [Hr0 Hr1].
  unfold z_prior_k5, Rsum. simpl.
  set (eq := exp (- eta_q)) in *. set (er := exp (- eta_r)) in *.
  assert (Hp : 1 - (1 - eq) - (1 - (1 - eq)) * (1 - er) = eq * er) by ring.
  assert (Hpr : 0 <= eq * er) by nra.
  assert (Hr' : 0 <= (1 - (1 - eq)) * (1 - er)) by nra.
  assert (Hq' : 0 <= 1 - eq) by lra.
  split; [|ring].
  rewrite Hp. repeat (apply Forall_cons_2; [nra|]). apply Forall_nil_2.
Qed.
End PriorFacts.

(** C4: for every rate [eta_q >= 0] the K = 3 prior [p^2, 2pq, q^2] has
    non-negative entries that sum to 1, and for all rates
    [eta_q, eta_r >= 0] so has the K = 5 prior
    [p^2, 2pq, 2pr + q^2, 2qr, r^2] (over the reals). *)
Theorem z_prior_simplex :
  (forall eta_q : R,
      (0 <= eta_q)%R ->
      Forall (fun x => (0 <= x)%R) (z_prior_k3 eta_q) /\
      Rsum (z_prior_k3 eta_q) = 1%R) /\
  (forall eta_q eta_r : R,
      (0 <= eta_q)%R -> (0 <= eta_r)%R ->
      Forall (fun x => (0 <= x)%R) (z_prior_k5 eta_q eta_r) /\
      Rsum (z_prior_k5 eta_q eta_r) = 1%R).
Proof.
  split.
  - apply z_prior_k3_simplex.
  - apply z_prior_k5_simplex.
Qed.

Lemma z_prior_simplex_witness :
  (Forall (fun x => (0 <= x)%R) (z_prior_k3 1) /\ Rsum (z_prior_k3 1) = 1%R) /\
  (Forall (fun x => (0 <= x)%R) (z_prior_k5 1 2) /\ Rsum (z_prior_k5 1 2) = 1%R).
Proof.
  destruct z_prior_simplex as [H3 H5].
  split; [apply H3; lra | apply H5; lra].
Defined.

(** ** Read-depth switch *)

Section ModelFacts.
Local Open Scope R_scope.

Variable self : SVGenotyperPyroModel.
Variable sites : Sites.
Variable data : SVGenotyperData.

Lemma b2r_binary (b : bool) : b2r b = 0 \/ b2r b = 1.
Proof. destruct b; simpl; auto. Qed.

Lemma m_rd_binary (v : nat) : m_rd self sites v = 0 \/ m_rd self sites v = 1.
Proof. unfold m_rd. destruct (has_rd self); [apply b2r_binary | auto]. Qed.

Lemma m_binary (ch : Channel) (v : nat) :
  m self sites ch v = 0 \/ m self sites ch v = 1.
Proof.
  unfold m. destruct ch; [destruct (has_pe self)|..];
    auto using b2r_binary.
Qed.

Lemma zip_with_select_l (c : R) (xs ys : list R) :
  c = 1 -> length xs = length ys ->
  zip_with (fun x y => c * x + (1 - c) * y) xs ys = xs.
Proof.
  intros -> . revert ys.
  induction xs as [|x xs IH]; intros [|y ys] Hlen; simpl in *;
    try reflexivity; try discriminate.
  f_equal; [ring | apply IH; congruence].
Qed.

Lemma zip_with_select_r (c : R) (xs ys : list R) :
  c = 0 -> length xs = length ys ->
  zip_with (fun x y => c * x + (1 - c) * y) xs ys = ys.
Proof.
  intros -> . revert ys.
  induction xs as [|x xs IH]; intros [|y ys] Hlen; simpl in *;
    try reflexivity; try discriminate.
  f_equal; [ring | apply IH; congruence].
Qed.

Lemma locs_lookup (ch : Channel) (v kk : nat) :
  (kk < Z.to_nat (k self))%nat ->
  locs self sites ch v !! kk =
    Some ((1 - m self sites ch v) * eps self sites ch v
          + m self sites ch v * (phi sites ch v * INR kk + eps self sites ch v)).
Proof.
  intros Hkk. unfold locs, m0_locs, m1_locs, k_range_t.
  rewrite lookup_zip_with, !list_lookup_fmap, lookup_seq_lt by exact Hkk.
  reflexivity.
Qed.

Lemma mu_obs_value (ch : Channel) (v s kk : nat) :
  (kk < Z.to_nat (k self))%nat ->
  mu_obs self sites data ch v s kk =
    Some (depth_t data v s *
          ((1 - m self sites ch v) * eps self sites ch v
           + m self sites ch v * (phi sites ch v * INR kk + eps self sites ch v))).
Proof. intros Hkk. unfold mu_obs. rewrite locs_lookup by exact Hkk. reflexivity. Qed.
End ModelFacts.

(** C5: the categorical weights of [z] are a binary switch.  The indicator
    [m_rd] is 0 or 1; at 1 the weights are the cell's [rd_gt_prob] row
    itself, whatever the rates [eta_q] and [eta_r] are, and at 0 they are
    the derived prior itself. *)
Theorem z_weights_switch (self : SVGenotyperPyroModel) (sites : Sites)
    (data : SVGenotyperData) (v s : nat) (prior : list R) :
  z_prior self sites v = Ok prior ->
  length (rd_gt_prob_t data v s) = length prior ->
  (m_rd self sites v = 0%R \/ m_rd self sites v = 1%R) /\
  (m_rd self sites v = 1%R ->
     z_weights self sites data v s = Ok (rd_gt_prob_t data v s)) /\
  (m_rd self sites v = 0%R ->
     z_weights self sites data v s = Ok prior).
Proof.
  intros Hprior Hlen. unfold z_weights. rewrite Hprior.
  split; [apply m_rd_binary|]. split; intros Hm; f_equal.
  - apply zip_with_select_l; assumption.
  - apply zip_with_select_r; assumption.
Qed.

Lemma del_model_constructed :
  returned (__init__ DEL None default_hyper "cpu" None ∅) = Ok del_model.
Proof. reflexivity. Qed.

Lemma ins_model_constructed :
  returned (__init__ INS None default_hyper "cpu" None ∅) = Ok ins_model.
Proof. reflexivity. Qed.

Lemma z_weights_switch_witness :
  (m_rd del_model (uniform_sites 1 1 1 true 0) 0 = 0%R \/
   m_rd del_model (uniform_sites 1 1 1 true 0) 0 = 1%R) /\
  (m_rd del_model (uniform_sites 1 1 1 true 0) 0 = 1%R ->
     z_weights del_model (uniform_sites 1 1 1 true 0)
       (uniform_data 1 1 [0.2; 0.3; 0.5]%R) 0 0 = Ok [0.2; 0.3; 0.5]%R) /\
  (m_rd del_model (uniform_sites 1 1 1 true 0) 0 = 0%R ->
     z_weights del_model (uniform_sites 1 1 1 true 0)
       (uniform_data 1 1 [0.2; 0.3; 0.5]%R) 0 0
     = Ok (z_prior_k3 (eta_q del_model (uniform_sites 1 1 1 true 0) 0))).
Proof.
  apply (z_weights_switch del_model (uniform_sites 1 1 1 true 0)
           (uniform_data 1 1 [0.2; 0.3; 0.5]%R) 0 0
           (z_prior_k3 (eta_q del_model (uniform_sites 1 1 1 true 0) 0)));
    reflexivity.
Defined.

(** ** Emission means *)

(** C6: for a channel whose emission [model] evaluates, at a state [kk]
    below K, the realized emission mean is [depth * eps] when the channel's
    indicator is 0, whatever the state, and [depth * (phi * kk + eps)]
    when it is 1: affine in the state with slope [depth * phi], hence
    increasing for the positive depth and effect size of the data model. *)
Theorem emission_mean (self : SVGenotyperPyroModel) (sites : Sites)
    (data : SVGenotyperData) (ch : Channel) (v s kk : nat) :
  ch ∈ channels self ->
  (kk < Z.to_nat (k self))%nat ->
  (m self sites ch v = 0%R \/ m self sites ch v = 1%R) /\
  (m self sites ch v = 0%R ->
     mu_obs self sites data ch v s kk
     = Some (depth_t data v s * eps self sites ch v)%R) /\
  (m self sites ch v = 1%R ->
     mu_obs self sites data ch v s kk
     = Some (depth_t data v s * (phi sites ch v * INR kk + eps self sites ch v))%R) /\
  (m self sites ch v = 1%R -> (S kk < Z.to_nat (k self))%nat ->
     exists a b,
       mu_obs self sites data ch v s kk = Some a /\
       mu_obs self sites data ch v s (S kk) = Some b /\
       (b - a = depth_t data v s * phi sites ch v)%R /\
       ((0 < depth_t data v s)%R -> (0 < phi sites ch v)%R -> (a < b)%R)).
Proof.
  intros _ Hkk. split; [apply m_binary|].
  split; [|split].
  - intros Hm. rewrite mu_obs_value by exact Hkk. rewrite Hm.
    f_equal. ring.
  - intros Hm. rewrite mu_obs_value by exact Hkk. rewrite Hm.
    f_equal. ring.
  - intros Hm Hk1. rewrite !mu_obs_value by assumption. rewrite Hm.
    eexists _, _. split; [reflexivity|]. split; [reflexivity|].
    rewrite S_INR. split; [ring | intros Hd Hp; nra].
Qed.

Lemma emission_mean_witness :
  (m del_model (uniform_sites 1 1 2 true 1) SR1 0 = 0%R \/
   m del_model (uniform_sites 1 1 2 true 1) SR1 0 = 1%R) /\
  (m del_model (uniform_sites 1 1 2 true 1) SR1 0 = 0%R ->
     mu_obs del_model (uniform_sites 1 1 2 true 1) (uniform_data 1 1 []) SR1 0 0 1
     = Some (depth_t (uniform_data 1 1 []) 0 0
             * eps del_model (uniform_sites 1 1 2 true 1) SR1 0)%R) /\
  (m del_model (uniform_sites 1 1 2 true 1) SR1 0 = 1%R ->
     mu_obs del_model (uniform_sites 1 1 2 true 1) (uniform_data 1 1 []) SR1 0 0 1
     = Some (depth_t (uniform_data 1 1 []) 0 0
             * (phi (uniform_sites 1 1 2 true 1) SR1 0 * INR 1
                + eps del_model (uniform_sites 1 1 2 true 1) SR1 0))%R) /\
  (m del_model (uniform_sites 1 1 2 true 1) SR1 0 = 1%R ->
   (2 < Z.to_nat (k del_model))%nat ->
     exists a b,
       mu_obs del_model (uniform_sites 1 1 2 true 1) (uniform_data 1 1 []) SR1 0 0 1
         = Some a /\
       mu_obs del_model (uniform_sites 1 1 2 true 1) (uniform_data 1 1 []) SR1 0 0 2
         = Some b /\
       (b - a = depth_t (uniform_data 1 1 []) 0 0
                * phi (uniform_sites 1 1 2 true 1) SR1 0)%R /\
       ((0 < depth_t (uniform_data 1 1 []) 0 0)%R ->
        (0 < phi (uniform_sites 1 1 2 true 1) SR1 0)%R -> (a < b)%R)).
Proof.
  apply (emission_mean del_model (uniform_sites 1 1 2 true 1)
           (uniform_data 1 1 []) SR1 0 0 1).
  - apply (bool_decide_unpack _). reflexivity.
  - simpl. lia.
Defined.

(** ** Negative-binomial reparameterization *)

Section NegativeBinomialFacts.
Local Open Scope R_scope.

Lemma nb_divisor (mu lam : R) : nb_var mu lam - mu = mu * lam.
Proof. unfold nb_var. ring. Qed.

Lemma torch_div_fin (a b : R) : b <> 0 -> torch_div a b = Fin (a / b).
Proof. intros Hb. unfold torch_div. destruct (Req_dec_T b 0); [contradiction | reflexivity]. Qed.

Lemma torch_div_zero (a b : R) : b = 0 -> is_finite (torch_div a b) = false.
Proof.
  intros Hb. unfold torch_div. destruct (Req_dec_T b 0); [|contradiction].
  destruct (Req_dec_T a 0); [reflexivity|].
  destruct (Rlt_dec 0 a); reflexivity.
Qed.

Lemma torch_div_pos_zero (a b : R) : 0 < a -> b = 0 -> torch_div a b = PosInf.
Proof.
  intros Ha Hb. unfold torch_div. destruct (Req_dec_T b 0); [|contradiction].
  destruct (Req_dec_T a 0); [lra|].
  destruct (Rlt_dec 0 a); [reflexivity | contradiction].
Qed.

Lemma torch_div_zero_zero (a b : R) : a = 0 -> b = 0 -> torch_div a b = NaN.
Proof.
  intros Ha Hb. unfold torch_div. destruct (Req_dec_T b 0); [|contradiction].
  destruct (Req_dec_T a 0); [reflexivity | contradiction].
Qed.
End NegativeBinomialFacts.

(** C7: for a mean [mu > 0] and an overdispersion [lam > 0] the computed
    parameters are [successes = mu / lam] and
    [success-probability = lam / (1 + lam)], and a negative binomial with
    these parameters has mean [mu] and variance [mu * (1 + lam)], the
    variance the model started from. *)
Theorem nb_parameter_identity (mu lam : R) :
  (0 < mu)%R -> (0 < lam)%R ->
  nb_total_count mu lam = Fin (mu / lam) /\
  nb_probs mu lam = Fin (lam / (1 + lam)) /\
  NegativeBinomial_mean (mu / lam) (lam / (1 + lam)) = mu /\
  NegativeBinomial_variance (mu / lam) (lam / (1 + lam)) = nb_var mu lam /\
  nb_var mu lam = (mu * (1 + lam))%R.
Proof.
  intros Hmu Hlam.
  assert (Hml : (mu * lam <> 0)%R) by nra.
  assert (Hv : (mu * (1 + lam) <> 0)%R) by nra.
  unfold nb_total_count, nb_probs.
  rewrite !torch_div_fin by (rewrite ?nb_divisor; unfold nb_var; assumption).
  unfold NegativeBinomial_variance, NegativeBinomial_mean, nb_var.
  repeat split; try (f_equal; field; lra); try (field; lra).
Qed.

Lemma nb_parameter_identity_witness :
  nb_total_count 3 2 = Fin (3 / 2) /\
  nb_probs 3 2 = Fin (2 / (1 + 2)) /\
  NegativeBinomial_mean (3 / 2) (2 / (1 + 2)) = 3%R /\
  NegativeBinomial_variance (3 / 2) (2 / (1 + 2)) = nb_var 3 2 /\
  nb_var 3 2 = (3 * (1 + 2))%R.
Proof. apply (nb_parameter_identity 3 2); lra. Defined.

(** C3: the divisor [variance - mean] of the reparameterization equals
    [mu * lam] and nothing guards it: whenever it is zero the computed
    [successes] parameter is an infinity or a NaN, not an exception.  The
    zero divisor is met inside the value ranges of the data model, both
    with overdispersion 0 at a positive mean and with mean 0. *)
Theorem nb_division_by_zero_reachable :
  (forall mu lam : R, (nb_var mu lam - mu = mu * lam)%R) /\
  (forall mu lam : R,
      (mu * lam = 0)%R -> is_finite (nb_total_count mu lam) = false) /\
  (exists sites data v s mu,
      in_domain del_model sites data v s /\
      lambda del_model sites SR1 = 0%R /\
      mu_obs del_model sites data SR1 v s (s_z sites v s) = Some mu /\
      (0 < mu)%R /\
      (nb_var mu (lambda del_model sites SR1) - mu = 0)%R /\
      emission del_model sites data SR1 v s = Some (PosInf, Fin 0)) /\
  (exists sites data v s,
      in_domain del_model sites data v s /\
      (0 < lambda del_model sites SR1)%R /\
      mu_obs del_model sites data SR1 v s (s_z sites v s) = Some 0%R /\
      (nb_var 0 (lambda del_model sites SR1) - 0 = 0)%R /\
      emission del_model sites data SR1 v s = Some (NaN, NaN)).
Proof.
  split; [exact nb_divisor|].
  split.
  { intros mu lam Hz. unfold nb_total_count.
    apply torch_div_zero. rewrite nb_divisor. exact Hz. }
  split.
  - set (sites := uniform_sites 0 1 1 false 0).
    set (data := uniform_data 1 1 [0.2; 0.3; 0.5]%R).
    assert (Hmu : mu_obs del_model sites data SR1 0 0 0 = Some (1 / 10)%R).
    { rewrite mu_obs_value by (simpl; lia). simpl. f_equal. lra. }
    exists sites, data, 0%nat, 0%nat, (1 / 10)%R.
    split; [|split; [|split; [|split; [|split]]]].
    + unfold in_domain. simpl. split; [lra|]. split; [|split; [auto | lia]].
      intros ch; destruct ch; simpl; lra.
    + simpl. lra.
    + exact Hmu.
    + lra.
    + unfold nb_var. simpl. lra.
    + unfold emission, r_obs, p_obs. simpl s_z.
      rewrite Hmu. simpl bool_decide. cbv iota.
      unfold nb_total_count, nb_probs.
      rewrite torch_div_pos_zero by (unfold nb_var; simpl; lra).
      rewrite torch_div_fin by (unfold nb_var; simpl; lra).
      do 3 f_equal. unfold nb_var. simpl. lra.
  - set (sites := uniform_sites 1 0 1 false 0).
    set (data := uniform_data 1 1 [0.2; 0.3; 0.5]%R).
    assert (Hmu : mu_obs del_model sites data SR1 0 0 0 = Some 0%R).
    { rewrite mu_obs_value by (simpl; lia). simpl. f_equal. lra. }
    exists sites, data, 0%nat, 0%nat.
    split; [|split; [|split; [|split]]].
    + unfold in_domain. simpl. split; [lra|]. split; [|split; [auto | lia]].
      intros ch; destruct ch; simpl; lra.
    + simpl. lra.
    + exact Hmu.
    + unfold nb_var. simpl. lra.
    + unfold emission, r_obs, p_obs. simpl s_z.
      rewrite Hmu. simpl bool_decide. cbv iota.
      unfold nb_total_count, nb_probs.
      rewrite !torch_div_zero_zero by (unfold nb_var; simpl; lra).
      reflexivity.
Qed.

(** ** Comprehensions, stacking and the sampling loop *)

Lemma dict_comprehension_acc_lookup {V} (keys : list string)
    (f : string -> PyResult V) (acc d : gmap string V) :
  dict_comprehension_acc keys f acc = Ok d ->
  forall key,
    d !! key = if decide (key ∈ keys)
               then match f key with Ok v => Some v | Raise _ => None end
               else acc !! key.
Proof.
  revert acc. induction keys as [|k0 rest IH]; intros acc Hd key; simpl in Hd.
  - injection Hd as <-. destruct (decide (key ∈ [])) as [Hin|_]; [|reflexivity].
    apply elem_of_nil in Hin. contradiction.
  - destruct (f k0) as [v|e] eqn:Hf; [|discriminate].
    rewrite (IH _ Hd key).
    destruct (decide (key ∈ rest)) as [Hin|Hnin].
    + rewrite decide_True by (apply elem_of_cons; auto). reflexivity.
    + destruct (decide (key = k0)) as [->|Hne].
      * rewrite decide_True by (apply elem_of_cons; auto).
        rewrite Hf. apply lookup_insert_eq.
      * rewrite decide_False
          by (intros [?|?]%elem_of_cons; [apply Hne | apply Hnin]; assumption).
        apply lookup_insert_ne. congruence.
Qed.

Lemma dict_comprehension_acc_ok {V} (keys : list string)
    (f : string -> PyResult V) (acc : gmap string V) :
  (forall key, key ∈ keys -> exists v, f key = Ok v) ->
  exists d, dict_comprehension_acc keys f acc = Ok d.
Proof.
  revert acc. induction keys as [|k0 rest IH]; intros acc Hf; simpl.
  - eauto.
  - destruct (Hf k0) as [v ->]; [apply elem_of_cons; auto|].
    apply IH. intros key Hin. apply Hf, elem_of_cons. auto.
Qed.

Lemma guide_traces_snoc (evs : list Event) (ev : Event) :
  guide_traces (evs ++ [ev]) =
    guide_traces evs + (if decide (ev = GuideTrace) then 1 else 0).
Proof.
  unfold guide_traces. rewrite filter_app, length_app. f_equal.
  rewrite filter_cons, filter_nil. destruct (decide (ev = GuideTrace)); reflexivity.
Qed.

Lemma model_traces_snoc (evs : list Event) (ev : Event) :
  model_traces (evs ++ [ev]) =
    model_traces evs + (if decide (ev = ModelTrace) then 1 else 0).
Proof.
  unfold model_traces. rewrite filter_app, length_app. f_equal.
  rewrite filter_cons, filter_nil. destruct (decide (ev = ModelTrace)); reflexivity.
Qed.

Lemma log_progress_events {RNG} (i : nat) (log_freq : Z) (what : string)
    (w w' : World RNG) (u : unit) :
  log_progress i log_freq what w = Ok (u, w') ->
  rng w' = rng w /\
  guide_traces (events w') = guide_traces (events w) /\
  model_traces (events w') = model_traces (events w).
Proof.
  unfold log_progress.
  destruct (bool_decide (log_freq = 0%Z)); [discriminate|].
  destruct (bool_decide _).
  - unfold logging_info, emit. intros [= _ <-]. simpl.
    rewrite guide_traces_snoc, model_traces_snoc.
    rewrite !decide_False by discriminate.
    split; [reflexivity | lia].
  - intros [= _ <-]. auto.
Qed.

Lemma log_progress_ok {RNG} (i : nat) (log_freq : Z) (what : string) (w : World RNG) :
  log_freq <> 0%Z -> exists w', log_progress i log_freq what w = Ok (tt, w').
Proof.
  intros Hne. unfold log_progress.
  rewrite bool_decide_eq_false_2 by exact Hne.
  destruct (bool_decide _); eexists; reflexivity.
Qed.

Section LoopFacts.
Variable RNG : Type.
Variable Cont : Type.
Variable run_discrete :
  SVGenotyperPyroModel -> Cont -> SVGenotyperData -> RNG -> DiscreteDraw * RNG.

Lemma infer_discrete_loop_events (self : SVGenotyperPyroModel) (c : Cont)
    (data : SVGenotyperData) (sites : list string) (log_freq : Z) :
  forall (xs : list nat) (acc acc' : list (gmap string (Tensor Z)))
         (w w' : World RNG),
    for_each xs (infer_discrete_body RNG Cont run_discrete self c data sites log_freq)
             acc w = Ok (acc', w') ->
    guide_traces (events w') = guide_traces (events w) /\
    model_traces (events w') = model_traces (events w) + length xs.
Proof.
  induction xs as [|x rest IH]; intros acc acc' w w'; simpl.
  - intros [= _ <-]. lia.
  - unfold mbind at 1, M_bind at 1.
    unfold infer_discrete_body at 1, inferred_get_trace, sample_with.
    unfold mbind, M_bind, mret, M_ret, lift. simpl.
    destruct (run_discrete self c data (rng w)) as [d g].
    cbn [nodes].
    destruct (dict_comprehension _ _) as [sample|e]; [|discriminate].
    destruct (log_progress _ _ _ _) as [[u w2]|e] eqn:Hlog; [|discriminate].
    intros Hrest. apply IH in Hrest as [Hg Hm].
    apply log_progress_events in Hlog as [_ [Hg2 Hm2]]. simpl in Hg2, Hm2.
    rewrite guide_traces_snoc in Hg2. rewrite model_traces_snoc in Hm2.
    rewrite decide_False in Hg2 by discriminate.
    rewrite decide_True in Hm2 by reflexivity. lia.
Qed.
End LoopFacts.

Lemma range_length (n : Z) : length (range n) = Z.to_nat n.
Proof. unfold range. apply length_seq. Qed.

Lemma discrete_sites_base (t : SVTypes) :
  "z" ∈ discrete_sites t /\ "m_sr1" ∈ discrete_sites t /\ "m_sr2" ∈ discrete_sites t.
Proof.
  unfold discrete_sites.
  destruct (_ || _ || _), (_ || _); cbv zeta; rewrite ?elem_of_app, !elem_of_cons;
    tauto.
Qed.

Lemma trace_nodes_lookup (self : SVGenotyperPyroModel) (data : SVGenotyperData)
    (d : DiscreteDraw) (site : string) :
  trace_nodes self data d !! site =
    if site_in_trace self site then Some (site_tensor data site d) else None.
Proof.
  unfold trace_nodes, site_in_trace, site_tensor.
  destruct (has_pe self), (has_rd self);
    rewrite ?lookup_insert, lookup_singleton;
    repeat case_decide; subst; try reflexivity; try congruence;
    rewrite !bool_decide_eq_false_2 by congruence; reflexivity.
Qed.

Lemma site_tensor_shape (data : SVGenotyperData) (site : string) (d : DiscreteDraw) :
  shape (site_tensor data site d) = site_shape data site.
Proof.
  unfold site_tensor, site_shape.
  repeat (destruct (bool_decide _)); reflexivity.
Qed.

Lemma discrete_sites_head (t : SVTypes) :
  exists rest, discrete_sites t = "z" :: "m_sr1" :: "m_sr2" :: rest.
Proof. destruct t; eexists; reflexivity. Qed.

Lemma sites_available_in_trace (self : SVGenotyperPyroModel) (svtype_arg : SVTypes) :
  sites_available self svtype_arg ->
  forall site, site ∈ discrete_sites svtype_arg -> site_in_trace self site = true.
Proof.
  intros [Hpe Hrd] site Hin. unfold site_in_trace.
  assert (Hcases : site = "z" \/ site = "m_sr1" \/ site = "m_sr2"
                   \/ site = "m_pe" \/ site = "m_rd").
  { revert Hin. unfold discrete_sites.
    destruct (_ || _ || _), (_ || _); cbv zeta;
      rewrite ?elem_of_app, !elem_of_cons, !elem_of_nil; tauto. }
  destruct Hcases as [-> | [-> | [-> | [-> | ->]]]]; try reflexivity.
  - rewrite (Hpe Hin). reflexivity.
  - rewrite (Hrd Hin). reflexivity.
Qed.

Lemma list_comprehension_exact {A B} (xs : list A) (f : A -> PyResult B)
    (ys : list B) :
  Forall2 (fun x y => f x = Ok y) xs ys -> list_comprehension xs f = Ok ys.
Proof.
  induction 1 as [|x y xs ys Hxy _ IH]; simpl.
  - reflexivity.
  - rewrite Hxy, IH. reflexivity.
Qed.

Lemma stack_exact {A} (ts : list (Tensor A)) (sh : list nat) :
  ts <> [] -> Forall (fun t => shape t = sh) ts ->
  stack ts = Ok {| shape := length ts :: sh; elems := concat (map elems ts) |}.
Proof.
  intros Hne Hall. destruct ts as [|t rest]; [contradiction|].
  pose proof Hall as Hall'. apply Forall_cons in Hall' as [Ht Hrest].
  unfold stack.
  assert (Hb : forallb (fun t' => bool_decide (shape t' = shape t)) rest = true).
  { apply forallb_forall. intros t' Hin.
    apply bool_decide_eq_true. rewrite Ht.
    rewrite Forall_forall in Hrest. apply Hrest, list_elem_of_In, Hin. }
  rewrite Hb, Ht. reflexivity.
Qed.

Lemma log_progress_rng {RNG} (i : nat) (log_freq : Z) (what : string) (w : World RNG) :
  log_freq <> 0%Z ->
  exists w', log_progress i log_freq what w = Ok (tt, w') /\ rng w' = rng w.
Proof.
  intros Hne. destruct (log_progress_ok i log_freq what w Hne) as [w' Hw].
  exists w'. split; [exact Hw|].
  apply log_progress_events in Hw as [Hr _]. exact Hr.
Qed.

(** A per-draw dictionary that binds every requested site to the tensor
    of that site in draw [d]. *)
Lemma sample_of_trace_exact (self : SVGenotyperPyroModel) (data : SVGenotyperData)
    (d : DiscreteDraw) (sites : list string) :
  (forall site, site ∈ sites -> site_in_trace self site = true) ->
  exists sample,
    dict_comprehension sites (py_getitem (trace_nodes self data d)) = Ok sample /\
    forall site, site ∈ sites -> sample !! site = Some (site_tensor data site d).
Proof.
  intros Hsites.
  destruct (dict_comprehension_acc_ok sites (py_getitem (trace_nodes self data d)) ∅)
    as [sample Hs].
  { intros key Hin. unfold py_getitem.
    rewrite trace_nodes_lookup, (Hsites key Hin). eauto. }
  exists sample. split; [exact Hs|].
  intros site Hin.
  rewrite (dict_comprehension_acc_lookup _ _ _ _ Hs site).
  rewrite decide_True by exact Hin. unfold py_getitem.
  rewrite trace_nodes_lookup, (Hsites site Hin). reflexivity.
Qed.

Section ExactLoop.
Variable RNG : Type.
Variable Cont : Type.
Variable run_discrete :
  SVGenotyperPyroModel -> Cont -> SVGenotyperData -> RNG -> DiscreteDraw * RNG.

Lemma infer_discrete_loop_exact (self : SVGenotyperPyroModel) (c : Cont)
    (data : SVGenotyperData) (sites : list string) (log_freq : Z) :
  log_freq <> 0%Z ->
  (forall site, site ∈ sites -> site_in_trace self site = true) ->
  forall (n a : nat) (acc : list (gmap string (Tensor Z))) (w : World RNG),
  exists new w',
    for_each (seq a n)
             (infer_discrete_body RNG Cont run_discrete self c data sites log_freq)
             acc w = Ok (acc ++ new, w') /\
    rng w' = (discrete_draws run_discrete self c data n (rng w)).2 /\
    Forall2 (fun sample d =>
               forall site, site ∈ sites ->
                 sample !! site = Some (site_tensor data site d))
            new (discrete_draws run_discrete self c data n (rng w)).1.
Proof.
  intros Hfreq Hsites n.
  induction n as [|n IH]; intros a acc w; simpl.
  - exists [], w. rewrite app_nil_r. split; [reflexivity|].
    split; [reflexivity | constructor].
  - unfold mbind at 1, M_bind at 1.
    unfold infer_discrete_body at 1, inferred_get_trace, sample_with.
    unfold mbind, M_bind, mret, M_ret, lift. simpl.
    destruct (run_discrete self c data (rng w)) as [d g].
    cbn [nodes].
    destruct (sample_of_trace_exact self data d sites Hsites) as [sample [-> Hsample]].
    match goal with
    | |- context [log_progress a log_freq ?what ?w1] =>
        destruct (log_progress_rng a log_freq what w1 Hfreq) as [w2 [-> Hrng]]
    end.
    cbn [rng] in Hrng.
    destruct (IH (S a) (acc ++ [sample]) w2) as [new [w' [-> [Hg Hall]]]].
    rewrite Hrng in Hg, Hall.
    destruct (discrete_draws run_discrete self c data n g) as [ds g2].
    exists (sample :: new), w'. rewrite <- app_assoc. simpl.
    split; [reflexivity|]. split; [exact Hg|]. constructor; assumption.
Qed.
End ExactLoop.

Lemma stack_sites_exact (data : SVGenotyperData) (sites : list string) (n_draws : Z)
    (samples : list (gmap string (Tensor Z))) (ds : list DiscreteDraw) :
  (0 < n_draws)%Z ->
  length ds = Z.to_nat n_draws ->
  Forall2 (fun sample d =>
             forall site, site ∈ sites ->
               sample !! site = Some (site_tensor data site d)) samples ds ->
  exists stacked,
    stack_sites sites n_draws samples = Ok stacked /\
    (forall site, site ∈ sites -> stacked !! site = Some (stacked_site data site ds)) /\
    (forall site, site ∉ sites -> stacked !! site = None).
Proof.
  intros Hn Hlen Hall. unfold stack_sites.
  set (f := fun site : string => _).
  assert (Hf : forall site, site ∈ sites -> f site = Ok (stacked_site data site ds)).
  { intros site Hin. unfold f.
    rewrite (list_comprehension_exact _ _ (map (site_tensor data site) ds)).
    - rewrite (stack_exact _ (site_shape data site)).
      + unfold stacked_site. rewrite length_map, map_map. reflexivity.
      + destruct ds; [simpl in Hlen; lia | discriminate].
      + apply Forall_map, Forall_true. intros d. apply site_tensor_shape.
    - apply Forall2_same_length_lookup_2.
      + unfold range. rewrite length_seq, length_map. lia.
      + intros i x t Hx Ht. unfold range in Hx.
        apply lookup_seq in Hx as [-> Hi]. simpl.
        rewrite list_lookup_fmap in Ht.
        destruct (ds !! i) as [d|] eqn:Hd; [|discriminate].
        injection Ht as <-.
        destruct (Forall2_lookup_r _ _ _ _ _ Hall Hd) as (sample & Hs & Hsample).
        unfold py_index, py_getitem. rewrite Hs, (Hsample site Hin). reflexivity. }
  destruct (dict_comprehension_acc_ok sites f ∅) as [stacked Hs].
  { intros key Hin. rewrite (Hf key Hin). eauto. }
  exists stacked. split; [exact Hs|]. split.
  - intros site Hin.
    rewrite (dict_comprehension_acc_lookup _ _ _ _ Hs site).
    rewrite decide_True by exact Hin. rewrite (Hf site Hin). reflexivity.
  - intros site Hnin.
    rewrite (dict_comprehension_acc_lookup _ _ _ _ Hs site).
    rewrite decide_False by exact Hnin. apply lookup_empty.
Qed.

Lemma discrete_draws_length {RNG Cont : Type}
    (run_discrete :
       SVGenotyperPyroModel -> Cont -> SVGenotyperData -> RNG -> DiscreteDraw * RNG)
    (self : SVGenotyperPyroModel) (c : Cont) (data : SVGenotyperData)
    (n : nat) (g : RNG) :
  length (discrete_draws run_discrete self c data n g).1 = n.
Proof.
  revert g. induction n as [|n IH]; intros g; simpl; [reflexivity|].
  destruct (run_discrete self c data g) as [d g1].
  specialize (IH g1).
  destruct (discrete_draws run_discrete self c data n g1) as [ds g2].
  simpl in *. lia.
Qed.

(** The run of [infer_discrete] under the conditions in which it returns:
    the stacked sites and the final random-number state. *)
Lemma infer_discrete_run (RNG Cont : Type)
    (run_guide : SVGenotyperPyroModel -> SVGenotyperData -> RNG -> Cont * RNG)
    (run_discrete :
       SVGenotyperPyroModel -> Cont -> SVGenotyperData -> RNG -> DiscreteDraw * RNG)
    (self : SVGenotyperPyroModel) (data : SVGenotyperData) (svtype_arg : SVTypes)
    (log_freq n_draws : Z) (w : World RNG) :
  sites_available self svtype_arg ->
  (0 < n_draws)%Z ->
  log_freq <> 0%Z ->
  let c := (run_guide self data (rng w)).1 in
  let g1 := (run_guide self data (rng w)).2 in
  let ds := (discrete_draws run_discrete self c data (Z.to_nat n_draws) g1).1 in
  let g2 := (discrete_draws run_discrete self c data (Z.to_nat n_draws) g1).2 in
  exists stacked w',
    infer_discrete RNG Cont run_guide run_discrete self data svtype_arg
                   log_freq n_draws w
    = match discrete_result stacked with
      | Ok out => Ok (out, w')
      | Raise e => Raise e
      end /\
    rng w' = g2 /\
    length ds = Z.to_nat n_draws /\
    (forall site, site ∈ discrete_sites svtype_arg ->
       stacked !! site = Some (stacked_site data site ds)) /\
    (forall site, site ∉ discrete_sites svtype_arg -> stacked !! site = None).
Proof.
  intros Hav Hn Hfreq c g1 ds g2.
  pose proof (sites_available_in_trace self svtype_arg Hav) as Hsites.
  unfold infer_discrete, guide_get_trace, logging_info, emit, sample_with.
  unfold mbind at 1 2 3, M_bind at 1 2 3. cbn [rng events].
  subst c g1 ds g2.
  destruct (run_guide self data (rng w)) as [c g]. cbn [fst snd].
  unfold range.
  match goal with
  | |- context [for_each _ ?body ?acc ?w1] =>
      destruct (infer_discrete_loop_exact RNG Cont run_discrete self c data
                  (discrete_sites svtype_arg) log_freq Hfreq Hsites
                  (Z.to_nat n_draws) 0 acc w1) as [samples [w2 [-> [Hg Hall]]]]
  end.
  cbn [rng] in Hg, Hall. rewrite app_nil_l.
  pose proof (discrete_draws_length run_discrete self c data (Z.to_nat n_draws) g)
    as Hlen.
  destruct (stack_sites_exact data (discrete_sites svtype_arg) n_draws samples _
              Hn Hlen Hall) as [stacked [Hst [Hin Hout]]].
  unfold mbind, M_bind, lift. rewrite Hst.
  exists stacked, {| rng := rng w2;
                     events := events w2 ++ [LoggingInfo "Inference complete."] |}.
  split; [destruct (discrete_result stacked); reflexivity|].
  split; [exact Hg|]. auto.
Qed.

Lemma discrete_sites_cases (t : SVTypes) (site : string) :
  site ∈ discrete_sites t ->
  site = "z" \/ site = "m_sr1" \/ site = "m_sr2" \/ site = "m_pe" \/ site = "m_rd".
Proof.
  unfold discrete_sites.
  destruct (_ || _ || _), (_ || _); cbv zeta;
    rewrite ?elem_of_app, !elem_of_cons, !elem_of_nil; tauto.
Qed.

Lemma discrete_result_lookup (stacked : gmap string (Tensor Z))
    (z m_sr1 m_sr2 : Tensor Z) :
  stacked !! "z" = Some z ->
  stacked !! "m_sr1" = Some m_sr1 ->
  stacked !! "m_sr2" = Some m_sr2 ->
  exists out,
    discrete_result stacked = Ok out /\
    dom out = ({["z"; "m_pe"; "m_sr1"; "m_sr2"; "m_rd"]} : gset string) /\
    out !! "z" = Some z /\
    out !! "m_sr1" = Some m_sr1 /\
    out !! "m_sr2" = Some m_sr2 /\
    out !! "m_pe" = Some (default (zeros 0%Z (shape m_sr1)) (stacked !! "m_pe")) /\
    out !! "m_rd" = Some (default (zeros 0%Z (shape m_sr1)) (stacked !! "m_rd")).
Proof.
  intros Hz H1 H2. unfold discrete_result, py_getitem. rewrite Hz, H1, H2.
  eexists. split; [reflexivity|].
  split; [rewrite !dom_insert_L, dom_singleton_L; set_solver|].
  split; [rewrite !lookup_insert_ne by discriminate; apply lookup_singleton_eq|].
  split; [rewrite !lookup_insert_ne by discriminate; apply lookup_insert_eq|].
  split; [rewrite !lookup_insert_ne by discriminate; apply lookup_insert_eq|].
  split.
  - rewrite !lookup_insert_ne by discriminate. rewrite lookup_insert_eq.
    destruct (stacked !! "m_pe"); reflexivity.
  - rewrite lookup_insert_eq. destruct (stacked !! "m_rd"); reflexivity.
Qed.

Lemma squeeze_leading_two (rows cols : nat) :
  2 <= rows -> squeeze_leading [rows; cols] = [rows; cols].
Proof. intros H. destruct rows as [|[|rows]]; [lia | lia | reflexivity]. Qed.

Lemma site_shape_two (data : SVGenotyperData) (site : string) :
  2 <= n_variants data ->
  site_shape data site =
    [n_variants data; if bool_decide (site = "z") then n_samples data else 1].
Proof.
  intros HV. unfold site_shape.
  destruct (bool_decide (site = "z")); apply squeeze_leading_two, HV.
Qed.

(** The three ways in which [infer_discrete] raises. *)
Section InferDiscreteRaises.
Variable RNG : Type.
Variable Cont : Type.
Variable run_guide : SVGenotyperPyroModel -> SVGenotyperData -> RNG -> Cont * RNG.
Variable run_discrete :
  SVGenotyperPyroModel -> Cont -> SVGenotyperData -> RNG -> DiscreteDraw * RNG.
Variable self : SVGenotyperPyroModel.
Variable data : SVGenotyperData.
Variable svtype_arg : SVTypes.
Variable log_freq n_draws : Z.
Variable w : World RNG.

Lemma no_draws_not_ok :
  (n_draws <= 0)%Z ->
  infer_discrete RNG Cont run_guide run_discrete self data svtype_arg
                 log_freq n_draws w
  = Raise (RuntimeError "stack expects a non-empty TensorList").
Proof.
  intros Hn.
  unfold infer_discrete, guide_get_trace, logging_info, emit, sample_with.
  unfold mbind at 1 2 3, M_bind at 1 2 3. cbn [rng events].
  destruct (run_guide self data (rng w)) as [c g].
  unfold stack_sites, range.
  replace (Z.to_nat n_draws) with 0 by lia.
  destruct (discrete_sites_head svtype_arg) as [rest ->].
  reflexivity.
Qed.

Lemma first_iteration (c : Cont) (g : RNG) (evs : list Event) (m : nat) :
  for_each (seq 0 (S m))
           (infer_discrete_body RNG Cont run_discrete self c data
              (discrete_sites svtype_arg) log_freq)
           [] {| rng := g; events := evs |}
  = match dict_comprehension (discrete_sites svtype_arg)
            (py_getitem (trace_nodes self data (run_discrete self c data g).1)) with
    | Raise e => Raise e
    | Ok sample =>
        match log_progress 0 log_freq "discrete latent"
                {| rng := (run_discrete self c data g).2;
                   events := evs ++ [ModelTrace] |} with
        | Raise e => Raise e
        | Ok (_, w1) =>
            for_each (seq 1 m)
                     (infer_discrete_body RNG Cont run_discrete self c data
                        (discrete_sites svtype_arg) log_freq)
                     [sample] w1
        end
    end.
Proof.
  cbn [seq for_each]. unfold mbind at 1, M_bind at 1.
  unfold infer_discrete_body at 1, inferred_get_trace, sample_with.
  unfold mbind, M_bind, mret, M_ret, lift. cbn [rng events].
  destruct (run_discrete self c data g) as [d g']. cbn [nodes fst snd].
  destruct (dict_comprehension _ _) as [sample|e]; [|reflexivity].
  destruct (log_progress _ _ _ _) as [[u w1]|e]; reflexivity.
Qed.

Lemma missing_site_not_ok :
  ~ sites_available self svtype_arg ->
  (0 < n_draws)%Z ->
  infer_discrete RNG Cont run_guide run_discrete self data svtype_arg
                 log_freq n_draws w
  = Raise (KeyError (if has_pe self then "m_rd" else "m_pe")).
Proof.
  intros Hnav Hn.
  unfold infer_discrete, guide_get_trace, logging_info, emit, sample_with.
  unfold mbind at 1 2 3, M_bind at 1 2 3. cbn [rng events].
  destruct (run_guide self data (rng w)) as [c g].
  unfold range. destruct (Z.to_nat n_draws) as [|m] eqn:Hm; [lia|].
  unfold mbind at 1, M_bind at 1. rewrite first_iteration.
  set (d := (run_discrete self c data g).1).
  assert (Hdict :
    dict_comprehension (discrete_sites svtype_arg)
                       (py_getitem (trace_nodes self data d))
    = Raise (KeyError (if has_pe self then "m_rd" else "m_pe"))).
  { revert Hnav. unfold sites_available, trace_nodes.
    destruct (has_pe self), (has_rd self), svtype_arg; intros Hnav;
      first
        [ reflexivity
        | exfalso; apply Hnav; split; intros Hin;
          first [ reflexivity
                | exfalso; revert Hin; apply (bool_decide_unpack _);
                  vm_compute; reflexivity ] ]. }
  rewrite Hdict. reflexivity.
Qed.

Lemma zero_log_freq_not_ok :
  sites_available self svtype_arg ->
  (0 < n_draws)%Z ->
  log_freq = 0%Z ->
  infer_discrete RNG Cont run_guide run_discrete self data svtype_arg
                 log_freq n_draws w
  = Raise (ZeroDivisionError "integer division or modulo by zero").
Proof.
  intros Hav Hn Hz.
  pose proof (sites_available_in_trace self svtype_arg Hav) as Hsites.
  unfold infer_discrete, guide_get_trace, logging_info, emit, sample_with.
  unfold mbind at 1 2 3, M_bind at 1 2 3. cbn [rng events].
  destruct (run_guide self data (rng w)) as [c g].
  unfold range. destruct (Z.to_nat n_draws) as [|m] eqn:Hm; [lia|].
  unfold mbind at 1, M_bind at 1. rewrite first_iteration.
  destruct (sample_of_trace_exact self data (run_discrete self c data g).1 _ Hsites)
    as [sample [-> _]].
  unfold log_progress. rewrite bool_decide_eq_true_2 by exact Hz. reflexivity.
Qed.

(** A call that returns was asked for at least one draw, with a logging
    period other than zero, from a model that samples the requested
    sites. *)
Lemma infer_discrete_ok_inv (out : gmap string (Tensor Z)) (w' : World RNG) :
  infer_discrete RNG Cont run_guide run_discrete self data svtype_arg
                 log_freq n_draws w = Ok (out, w') ->
  sites_available self svtype_arg /\ (0 < n_draws)%Z /\ log_freq <> 0%Z.
Proof.
  intros Hok.
  destruct (decide (0 < n_draws)%Z) as [Hn | Hn];
    [|rewrite no_draws_not_ok in Hok by lia; discriminate Hok].
  destruct (decide (("m_pe" ∈ discrete_sites svtype_arg -> has_pe self = true) /\
                    ("m_rd" ∈ discrete_sites svtype_arg -> has_rd self = true)))
    as [Hav | Hnav];
    [|rewrite (missing_site_not_ok Hnav Hn) in Hok; discriminate Hok].
  destruct (decide (log_freq = 0%Z)) as [Hz | Hz];
    [rewrite (zero_log_freq_not_ok Hav Hn Hz) in Hok; discriminate Hok|].
  auto.
Qed.

(** The run of a call that returns. *)
Lemma infer_discrete_ok_run (out : gmap string (Tensor Z)) (w' : World RNG) :
  infer_discrete RNG Cont run_guide run_discrete self data svtype_arg
                 log_freq n_draws w = Ok (out, w') ->
  let c := (run_guide self data (rng w)).1 in
  let g1 := (run_guide self data (rng w)).2 in
  let ds := (discrete_draws run_discrete self c data (Z.to_nat n_draws) g1).1 in
  let g2 := (discrete_draws run_discrete self c data (Z.to_nat n_draws) g1).2 in
  exists stacked,
    discrete_result stacked = Ok out /\
    rng w' = g2 /\
    length ds = Z.to_nat n_draws /\
    (forall site, site ∈ discrete_sites svtype_arg ->
       stacked !! site = Some (stacked_site data site ds)) /\
    (forall site, site ∉ discrete_sites svtype_arg -> stacked !! site = None).
Proof.
  intros Hok c g1 ds g2.
  destruct (infer_discrete_ok_inv out w' Hok) as (Hav & Hn & Hfreq).
  destruct (infer_discrete_run RNG Cont run_guide run_discrete self data
              svtype_arg log_freq n_draws w Hav Hn Hfreq)
    as (stacked & w'' & Hrun & Hrng & Hlen & Hin & Hout).
  rewrite Hok in Hrun. exists stacked.
  destruct (discrete_result stacked) as [out'|e]; [|discriminate Hrun].
  injection Hrun as -> ->. repeat split; assumption.
Qed.
End InferDiscreteRaises.

(** C9: in every result that [infer_discrete] returns, each [m_*] channel
    that is not requested for the class is the all-zero array of the shape
    of the returned [m_sr1] array, not a sampled value; for Insertion these
    are both [m_pe] and [m_rd].  With two variants or more that shape is
    [N, V, 1], one entry per draw and variant, while [z] has shape
    [N, V, S]. *)
Theorem infer_discrete_absent_channels (RNG Cont : Type)
    (run_guide : SVGenotyperPyroModel -> SVGenotyperData -> RNG -> Cont * RNG)
    (run_discrete :
       SVGenotyperPyroModel -> Cont -> SVGenotyperData -> RNG -> DiscreteDraw * RNG)
    (self : SVGenotyperPyroModel) (data : SVGenotyperData) (svtype_arg : SVTypes)
    (log_freq n_draws : Z) (w : World RNG)
    (out : gmap string (Tensor Z)) (w' : World RNG) :
  infer_discrete RNG Cont run_guide run_discrete self data svtype_arg
                 log_freq n_draws w = Ok (out, w') ->
  exists z m_sr1,
    out !! "z" = Some z /\
    out !! "m_sr1" = Some m_sr1 /\
    ("m_pe" ∉ discrete_sites svtype_arg ->
       out !! "m_pe" = Some (zeros 0%Z (shape m_sr1))) /\
    ("m_rd" ∉ discrete_sites svtype_arg ->
       out !! "m_rd" = Some (zeros 0%Z (shape m_sr1))) /\
    (svtype_arg = INS ->
       out !! "m_pe" = Some (zeros 0%Z (shape m_sr1)) /\
       out !! "m_rd" = Some (zeros 0%Z (shape m_sr1))) /\
    (2 <= n_variants data ->
       shape z = [Z.to_nat n_draws; n_variants data; n_samples data] /\
       shape m_sr1 = [Z.to_nat n_draws; n_variants data; 1]).
Proof.
  intros Hok.
  destruct (infer_discrete_ok_run RNG Cont run_guide run_discrete self data
              svtype_arg log_freq n_draws w out w' Hok)
    as (stacked & Hres & _ & Hlen & Hin & Hout).
  destruct (discrete_sites_base svtype_arg) as [Sz [S1 S2]].
  destruct (discrete_result_lookup stacked _ _ _ (Hin _ Sz) (Hin _ S1) (Hin _ S2))
    as (out' & Hres' & _ & Hz & H1 & _ & Hpe & Hrd).
  rewrite Hres in Hres'. injection Hres' as <-.
  eexists _, _. split; [exact Hz|]. split; [exact H1|].
  assert (Hzero_pe : "m_pe" ∉ discrete_sites svtype_arg ->
            out !! "m_pe" = Some (zeros 0%Z (shape (stacked_site data "m_sr1" _))))
    by (intros Hn; rewrite Hpe, (Hout _ Hn); reflexivity).
  assert (Hzero_rd : "m_rd" ∉ discrete_sites svtype_arg ->
            out !! "m_rd" = Some (zeros 0%Z (shape (stacked_site data "m_sr1" _))))
    by (intros Hn; rewrite Hrd, (Hout _ Hn); reflexivity).
  split; [exact Hzero_pe|]. split; [exact Hzero_rd|]. split.
  - intros ->. split; [apply Hzero_pe | apply Hzero_rd];
      apply (bool_decide_unpack _); reflexivity.
  - intros HV. unfold stacked_site. cbn [shape].
    rewrite Hlen, !site_shape_two by exact HV. split; reflexivity.
Qed.

Lemma infer_discrete_absent_channels_witness :
  exists out w' z m_sr1,
    infer_discrete nat nat counter_guide echo_discrete ins_model
                   (uniform_data 2 3 [0.5; 0.25; 0.25]%R) INS 100 2 initial_world
      = Ok (out, w') /\
    out !! "z" = Some z /\
    out !! "m_sr1" = Some m_sr1 /\
    ("m_pe" ∉ discrete_sites INS -> out !! "m_pe" = Some (zeros 0%Z (shape m_sr1))) /\
    ("m_rd" ∉ discrete_sites INS -> out !! "m_rd" = Some (zeros 0%Z (shape m_sr1))) /\
    (INS = INS ->
       out !! "m_pe" = Some (zeros 0%Z (shape m_sr1)) /\
       out !! "m_rd" = Some (zeros 0%Z (shape m_sr1))) /\
    (2 <= n_variants (uniform_data 2 3 [0.5; 0.25; 0.25]%R) ->
       shape z = [Z.to_nat 2; n_variants (uniform_data 2 3 [0.5; 0.25; 0.25]%R);
                  n_samples (uniform_data 2 3 [0.5; 0.25; 0.25]%R)] /\
       shape m_sr1 = [Z.to_nat 2; n_variants (uniform_data 2 3 [0.5; 0.25; 0.25]%R); 1]).
Proof.
  destruct (infer_discrete nat nat counter_guide echo_discrete ins_model
              (uniform_data 2 3 [0.5; 0.25; 0.25]%R) INS 100 2 initial_world)
    as [[out w']|e] eqn:E; [|vm_compute in E; discriminate E].
  destruct (infer_discrete_absent_channels nat nat counter_guide echo_discrete
              ins_model (uniform_data 2 3 [0.5; 0.25; 0.25]%R) INS 100 2 initial_world
              out w' E) as (z & m_sr1 & H).
  exists out, w', z, m_sr1. split; [reflexivity | exact H].
Defined.

(** C9, as stated, fails: on an Insertion model with two variants, three
    samples and read-depth rows of K = 3 weights, one draw returns [z] of
    shape [1, 2, 3] but [m_pe] and [m_rd] of shape [1, 2, 1], not
    [N, V, S] = [1, 2, 3]. *)
Lemma infer_discrete_ins_shape_not_NVS :
  let data := uniform_data 2 3 [0.5; 0.25; 0.25]%R in
  let r := returned (infer_discrete nat nat counter_guide echo_discrete ins_model
                                    data INS 100 1 initial_world) in
  result_shape r "z" = Some [1; n_variants data; n_samples data] /\
  result_shape r "m_pe" = Some [1; 2; 1] /\
  result_shape r "m_rd" = Some [1; 2; 1] /\
  result_shape r "m_pe" <> Some [1; n_variants data; n_samples data] /\
  result_shape r "m_rd" <> Some [1; n_variants data; n_samples data].
Proof.
  vm_compute. repeat split; discriminate.
Qed.

(** ** infer_discrete_full *)

Lemma infer_discrete_full_body_raises (RNG Cont : Type)
    (run_discrete :
       SVGenotyperPyroModel -> Cont -> SVGenotyperData -> RNG -> DiscreteDraw * RNG)
    (self : SVGenotyperPyroModel) (c : Cont) (data : SVGenotyperData)
    (log_freq : Z) (i : nat) (acc : list (list (Tensor TFloat))) (w : World RNG) :
  infer_discrete_full_body RNG Cont run_discrete self c data log_freq i acc w
  = Raise (TypeError "'NoneType' object is not subscriptable").
Proof.
  unfold infer_discrete_full_body, inferred_get_trace, sample_with.
  unfold mbind, M_bind, mret, M_ret.
  destruct (run_discrete self c data (rng w)) as [d g]. reflexivity.
Qed.

(** C2 (the code at every input): [infer_discrete_full] never returns.
    With at least one draw the first read of the model's return value
    raises a [TypeError], because [model] returns [None]; without a draw
    the stacking of an empty list raises a [RuntimeError]. *)
Theorem infer_discrete_full_raises (RNG Cont : Type)
    (run_guide : SVGenotyperPyroModel -> SVGenotyperData -> RNG -> Cont * RNG)
    (run_discrete :
       SVGenotyperPyroModel -> Cont -> SVGenotyperData -> RNG -> DiscreteDraw * RNG)
    (nb_sample : Tensor TFloat -> Tensor TFloat -> RNG -> Tensor TFloat * RNG)
    (self : SVGenotyperPyroModel) (data : SVGenotyperData) (svtype_arg : SVTypes)
    (log_freq n_draws : Z) (w : World RNG) :
  infer_discrete_full RNG Cont run_guide run_discrete nb_sample self data
                      svtype_arg log_freq n_draws w
  = Raise (if bool_decide (0 < n_draws)%Z
           then TypeError "'NoneType' object is not subscriptable"
           else RuntimeError "stack expects a non-empty TensorList").
Proof.
  unfold infer_discrete_full, guide_get_trace, logging_info, emit, sample_with.
  unfold mbind at 1 2 3, M_bind at 1 2 3. cbn [rng events].
  destruct (run_guide self data (rng w)) as [c g].
  unfold stack_columns, range.
  destruct (Z.to_nat n_draws) as [|m] eqn:Hn.
  - rewrite (bool_decide_eq_false_2 (0 < n_draws)%Z) by lia. reflexivity.
  - rewrite (bool_decide_eq_true_2 (0 < n_draws)%Z) by lia.
    cbn [seq for_each]. unfold mbind at 1, M_bind at 1.
    rewrite infer_discrete_full_body_raises. reflexivity.
Qed.

(** ** One guide trace per call *)

Lemma for_each_ext {RNG A S} (xs : list A) (body1 body2 : A -> S -> M RNG S) :
  (forall x acc w, body1 x acc w = body2 x acc w) ->
  forall acc w, for_each xs body1 acc w = for_each xs body2 acc w.
Proof.
  intros Hbody. induction xs as [|x rest IH]; intros acc w; simpl.
  - reflexivity.
  - unfold mbind, M_bind. rewrite Hbody.
    destruct (body2 x acc w) as [[acc' w']|e]; [apply IH | reflexivity].
Qed.

Lemma infer_discrete_body_ext (RNG Cont : Type)
    (run_discrete run_discrete' :
       SVGenotyperPyroModel -> Cont -> SVGenotyperData -> RNG -> DiscreteDraw * RNG)
    (self : SVGenotyperPyroModel) (c : Cont) (data : SVGenotyperData)
    (sites : list string) (log_freq : Z) :
  (forall g, run_discrete' self c data g = run_discrete self c data g) ->
  forall i acc w,
    infer_discrete_body RNG Cont run_discrete' self c data sites log_freq i acc w
    = infer_discrete_body RNG Cont run_discrete self c data sites log_freq i acc w.
Proof.
  intros Hd i acc w.
  unfold infer_discrete_body, inferred_get_trace, sample_with.
  unfold mbind, M_bind. rewrite Hd. reflexivity.
Qed.

(** C1, as the code has it: a call of [infer_discrete] traces the guide
    once, before the sampling loop, and replays that one trace in each of
    its N model traces.  The returned draws depend on the guide only
    through this first trace [c0], and on the discrete sampler only through
    its behaviour against [c0]; a call that returns has taken exactly one
    guide trace and N model traces. *)
Theorem infer_discrete_single_guide_trace (RNG Cont : Type)
    (run_guide : SVGenotyperPyroModel -> SVGenotyperData -> RNG -> Cont * RNG)
    (run_discrete :
       SVGenotyperPyroModel -> Cont -> SVGenotyperData -> RNG -> DiscreteDraw * RNG)
    (self : SVGenotyperPyroModel) (data : SVGenotyperData) (svtype_arg : SVTypes)
    (log_freq n_draws : Z) (w : World RNG) :
  let c0 := (run_guide self data (rng w)).1 in
  (forall run_guide' run_discrete',
      run_guide' self data (rng w) = run_guide self data (rng w) ->
      (forall g, run_discrete' self c0 data g = run_discrete self c0 data g) ->
      infer_discrete RNG Cont run_guide' run_discrete' self data svtype_arg
                     log_freq n_draws w
      = infer_discrete RNG Cont run_guide run_discrete self data svtype_arg
                       log_freq n_draws w) /\
  (forall out w',
      infer_discrete RNG Cont run_guide run_discrete self data svtype_arg
                     log_freq n_draws w = Ok (out, w') ->
      guide_traces (events w') = guide_traces (events w) + 1 /\
      model_traces (events w') = model_traces (events w) + Z.to_nat n_draws).
Proof.
  intros c0. split.
  - intros run_guide' run_discrete' Hg Hd.
    unfold infer_discrete, guide_get_trace, logging_info, emit, sample_with.
    unfold mbind, M_bind. cbn [rng events].
    rewrite Hg. subst c0.
    destruct (run_guide self data (rng w)) as [c g]. cbn [fst] in Hd.
    rewrite (for_each_ext _ _ _
               (infer_discrete_body_ext RNG Cont run_discrete run_discrete'
                  self c data (discrete_sites svtype_arg) log_freq Hd)).
    reflexivity.
  - intros out w'.
    unfold infer_discrete, guide_get_trace, logging_info, emit, sample_with.
    unfold mbind at 1 2 3, M_bind at 1 2 3. cbn [rng events].
    destruct (run_guide self data (rng w)) as [c g].
    destruct (for_each _ _ _ _) as [[samples w1]|e] eqn:Hloop; [|discriminate].
    apply infer_discrete_loop_events in Hloop as [Hg Hm].
    cbn [events] in Hg, Hm.
    rewrite range_length in Hm.
    rewrite !guide_traces_snoc in Hg. rewrite !model_traces_snoc in Hm.
    rewrite decide_False in Hg by discriminate.
    rewrite decide_True in Hg by reflexivity.
    rewrite !decide_False in Hm by discriminate.
    unfold mbind, M_bind, lift.
    destruct (stack_sites _ _ _) as [stacked|e]; [|discriminate].
    destruct (discrete_result stacked) as [out'|e]; [|discriminate].
    intros [= _ <-]. cbn [events].
    rewrite guide_traces_snoc, model_traces_snoc.
    rewrite !decide_False by discriminate. lia.
Qed.

Lemma infer_discrete_single_guide_trace_witness :
  exists out w',
    infer_discrete nat nat counter_guide echo_discrete del_model
                   (uniform_data 2 2 [0.5; 0.25; 0.25]%R) DEL 100 2 initial_world
      = Ok (out, w') /\
    guide_traces (events w') = guide_traces (events initial_world) + 1 /\
    model_traces (events w') = model_traces (events initial_world) + Z.to_nat 2.
Proof.
  destruct (infer_discrete nat nat counter_guide echo_discrete del_model
              (uniform_data 2 2 [0.5; 0.25; 0.25]%R) DEL 100 2 initial_world)
    as [[out w']|e] eqn:E; [|vm_compute in E; discriminate E].
  exists out, w'. split; [reflexivity|].
  exact (proj2 (infer_discrete_single_guide_trace nat nat counter_guide
                  echo_discrete del_model (uniform_data 2 2 [0.5; 0.25; 0.25]%R) DEL 100 2
                  initial_world) out w' E).
Defined.

(** C1, as stated, fails: on a Deletion model with two variants, two
    samples and read-depth rows of K = 3 weights, with two draws, the code
    replays the guide trace taken at the start in both model traces, whereas
    the procedure of the spec takes a second guide trace for the second
    draw; the two returned dictionaries differ. *)
Lemma infer_discrete_not_fresh_guide_per_draw :
  let data := uniform_data 2 2 [0.5; 0.25; 0.25]%R in
  let code := returned (infer_discrete nat nat counter_guide echo_discrete
                          del_model data DEL 100 2 initial_world) in
  let spec := returned (spec_infer_discrete nat nat counter_guide echo_discrete
                          del_model data DEL 2 initial_world) in
  result_elems code "z" = Some [0; 0; 0; 0; 0; 0; 0; 0]%Z /\
  result_elems spec "z" = Some [0; 0; 0; 0; 2; 2; 2; 2]%Z /\
  code <> spec.
Proof.
  intros data code spec.
  assert (Hc : result_elems code "z" = Some [0; 0; 0; 0; 0; 0; 0; 0]%Z)
    by (vm_compute; reflexivity).
  assert (Hs : result_elems spec "z" = Some [0; 0; 0; 0; 2; 2; 2; 2]%Z)
    by (vm_compute; reflexivity).
  split; [exact Hc|]. split; [exact Hs|].
  intros Heq. rewrite Heq in Hc. rewrite Hc in Hs. discriminate Hs.
Qed.

(** * Further properties *)

(** ** Construction *)

Lemma init_inversion t k_arg hy dev loss_arg h self h' :
  __init__ t k_arg hy dev loss_arg h = Ok (self, h') ->
  exists base,
    init_k t k_arg = Ok (k self) /\
    init_latent_sites t = Ok base /\
    init_eta_sites (k self) base = Ok (latent_sites self) /\
    svtype self = t /\
    device self = dev /\
    mu_lambda_pe self = h_mu_lambda_pe hy /\
    mu_lambda_sr1 self = h_mu_lambda_sr1 hy /\
    mu_lambda_sr2 self = h_mu_lambda_sr2 hy.
Proof.
  unfold __init__. destruct (init_loss loss_arg h) as [l h0].
  destruct (init_k t k_arg) as [kv|e]; [|discriminate].
  destruct (init_latent_sites t) as [ss|e]; [|discriminate].
  destruct (init_eta_sites kv ss) as [ss'|e] eqn:Heta; [|discriminate].
  intros [= <- <-]. simpl. exists ss. rewrite Heta. repeat split; reflexivity.
Qed.

Lemma init_eta_sites_k (kv : Z) (base ss : list string) :
  init_eta_sites kv base = Ok ss -> kv = 3%Z \/ kv = 5%Z.
Proof.
  unfold init_eta_sites.
  destruct (bool_decide (kv = 3%Z)) eqn:H3; [apply bool_decide_eq_true in H3; auto|].
  destruct (bool_decide (kv = 5%Z)) eqn:H5; [apply bool_decide_eq_true in H5; auto|].
  discriminate.
Qed.

Lemma init_k_constructed t k_arg hy dev loss_arg h self h' :
  __init__ t k_arg hy dev loss_arg h = Ok (self, h') ->
  k self = 3%Z \/ k self = 5%Z.
Proof.
  intros (base & _ & _ & Heta & _)%init_inversion.
  eapply init_eta_sites_k, Heta.
Qed.

Lemma init_supported t k_arg hy dev loss_arg h self h' :
  __init__ t k_arg hy dev loss_arg h = Ok (self, h') -> supported t.
Proof.
  intros (base & _ & Hsites & _)%init_inversion.
  unfold supported. destruct t; auto; discriminate Hsites.
Qed.

(** X1: [__init__] returns a model exactly when the class is one of the
    four supported ones and K is omitted, 3 or 5; an explicit K is stored
    as given, also where it differs from the class's default. *)
Theorem init_succeeds_iff (t : SVTypes) (k_arg : option Z) (hy : Hyper)
    (dev : string) (loss_arg : option loc) (h : gmap loc PyObj) :
  ((exists self h', __init__ t k_arg hy dev loss_arg h = Ok (self, h')) <->
   supported t /\ (k_arg = None \/ k_arg = Some 3%Z \/ k_arg = Some 5%Z)) /\
  (forall kv self h',
      k_arg = Some kv ->
      __init__ t k_arg hy dev loss_arg h = Ok (self, h') -> k self = kv).
Proof.
  split; [split|].
  - intros (self & h' & Hinit). split; [eapply init_supported, Hinit|].
    pose proof (init_k_constructed _ _ _ _ _ _ _ _ Hinit) as Hk.
    apply init_inversion in Hinit as (base & Hik & _).
    destruct k_arg as [kv|]; [|auto]. simpl in Hik. injection Hik as ->.
    destruct Hk as [-> | ->]; auto.
  - intros [Hs Hk]. unfold __init__.
    destruct (init_loss loss_arg h) as [l h0].
    destruct Hs as [-> | [-> | [-> | ->]]];
      destruct Hk as [-> | [-> | ->]]; simpl; eauto.
  - intros kv self h' -> Hinit.
    apply init_inversion in Hinit as (base & Hik & _).
    simpl in Hik. congruence.
Qed.

Lemma init_succeeds_iff_witness :
  exists self h',
    __init__ DEL (Some 5%Z) default_hyper "cpu" None ∅ = Ok (self, h') /\
    k self = 5%Z.
Proof.
  destruct (__init__ DEL (Some 5%Z) default_hyper "cpu" None ∅)
    as [[self h']|e] eqn:E; [|discriminate E].
  exists self, h'. split; [reflexivity|].
  exact (proj2 (init_succeeds_iff DEL (Some 5%Z) default_hyper "cpu" None ∅)
           5%Z self h' eq_refl E).
Defined.

(** X2: the [latent_sites] of a constructed model are, up to order, exactly
    the continuous sample sites that its [model] reaches: no continuous site
    is left out of the guide, no discrete or observed site is exposed to it,
    and no site is listed twice. *)
Theorem latent_sites_are_continuous_sites (t : SVTypes) (k_arg : option Z)
    (hy : Hyper) (dev : string) (loss_arg : option loc) (h : gmap loc PyObj)
    (self : SVGenotyperPyroModel) (h' : gmap loc PyObj) :
  __init__ t k_arg hy dev loss_arg h = Ok (self, h') ->
  latent_sites self ≡ₚ sites_of_kind Continuous self /\
  NoDup (latent_sites self) /\
  (forall site, site ∈ latent_sites self ->
     (site ∉ sites_of_kind Discrete self) /\
     (site ∉ sites_of_kind Observed self)).
Proof.
  intros Hinit.
  pose proof (init_k_constructed _ _ _ _ _ _ _ _ Hinit) as Hk.
  apply init_inversion in Hinit as (base & _ & Hbase & Heta & Hsv & _).
  assert (Hall : latent_sites self ≡ₚ sites_of_kind Continuous self /\
                 NoDup (latent_sites self) /\
                 Forall (fun site => (site ∉ sites_of_kind Discrete self) /\
                                     (site ∉ sites_of_kind Observed self))
                        (latent_sites self)).
  { unfold sites_of_kind, model_sites, has_pe, has_rd.
    rewrite Hsv.
    destruct t; try discriminate Hbase; injection Hbase as <-;
      destruct Hk as [Hk | Hk]; rewrite Hk in Heta |- *;
      injection Heta as <-;
      (split; [apply (bool_decide_unpack _); vm_compute; reflexivity|]);
      (split; apply (bool_decide_unpack _); vm_compute; reflexivity). }
  destruct Hall as (Hp & Hn & Hf).
  split; [exact Hp|]. split; [exact Hn|].
  intros site Hin. rewrite Forall_forall in Hf. apply Hf, Hin.
Qed.

Lemma latent_sites_are_continuous_sites_witness :
  latent_sites del_model ≡ₚ sites_of_kind Continuous del_model /\
  NoDup (latent_sites del_model) /\
  (forall site, site ∈ latent_sites del_model ->
     (site ∉ sites_of_kind Discrete del_model) /\
     (site ∉ sites_of_kind Observed del_model)).
Proof.
  apply (latent_sites_are_continuous_sites DEL None default_hyper "cpu" None ∅
           del_model
           (match __init__ DEL None default_hyper "cpu" None ∅ with
            | Ok (_, h') => h'
            | Raise _ => ∅
            end)).
  reflexivity.
Defined.

(** X3: queried with the class it was constructed for, [infer_discrete]
    requests, up to order, exactly the discrete sample sites that the
    model's [model] reaches. *)
Theorem requested_sites_are_discrete_sites (t : SVTypes) (k_arg : option Z)
    (hy : Hyper) (dev : string) (loss_arg : option loc) (h : gmap loc PyObj)
    (self : SVGenotyperPyroModel) (h' : gmap loc PyObj) :
  __init__ t k_arg hy dev loss_arg h = Ok (self, h') ->
  discrete_sites (svtype self) ≡ₚ sites_of_kind Discrete self.
Proof.
  intros Hinit.
  pose proof (init_k_constructed _ _ _ _ _ _ _ _ Hinit) as Hk.
  pose proof (init_supported _ _ _ _ _ _ _ _ Hinit) as Hs.
  apply init_inversion in Hinit as (base & _ & _ & _ & Hsv & _).
  unfold sites_of_kind, model_sites, has_pe, has_rd. rewrite Hsv.
  destruct Hs as [-> | [-> | [-> | ->]]]; destruct Hk as [-> | ->];
    apply (bool_decide_unpack _); vm_compute; reflexivity.
Qed.

Lemma requested_sites_are_discrete_sites_witness :
  discrete_sites (svtype ins_model) ≡ₚ sites_of_kind Discrete ins_model.
Proof.
  apply (requested_sites_are_discrete_sites INS None default_hyper "cpu" None ∅
           ins_model
           (match __init__ INS None default_hyper "cpu" None ∅ with
            | Ok (_, h') => h'
            | Raise _ => ∅
            end)).
  reflexivity.
Defined.

Lemma init_loss_none (h : gmap loc PyObj) (l : loc) (h' : gmap loc PyObj) :
  init_loss None h = (l, h') ->
  exists l_epoch l_elbo,
    (l_epoch ∉ dom h) /\ (l_elbo ∉ dom h) /\ (l ∉ dom h) /\
    l_epoch <> l_elbo /\ l_epoch <> l /\ l_elbo <> l /\
    h' = <[l := PyDict (<["elbo" := PyRef l_elbo]> {["epoch" := PyRef l_epoch]})]>
           (<[l_elbo := PyList []]> (<[l_epoch := PyList []]> h)).
Proof.
  unfold init_loss, alloc. intros [= <- <-].
  set (le := fresh (dom h)).
  set (h1 := <[le := PyList []]> h).
  set (lb := fresh (dom h1)).
  set (h2 := <[lb := PyList []]> h1).
  pose proof (is_fresh (dom h)) as He. fold le in He.
  pose proof (is_fresh (dom h1)) as Hb. fold lb in Hb.
  pose proof (is_fresh (dom h2)) as Hd.
  set (ld := fresh (dom h2)) in *.
  unfold h1 in Hb. unfold h2, h1 in Hd.
  rewrite dom_insert_L in Hb. rewrite !dom_insert_L in Hd.
  apply not_elem_of_union in Hb as [Hb1 Hb2].
  apply not_elem_of_union in Hd as [Hd1 Hd2].
  apply not_elem_of_union in Hd2 as [Hd2 Hd3].
  rewrite not_elem_of_singleton in Hb1, Hd1, Hd2.
  exists le, lb. repeat split; try assumption; try congruence.
Qed.

(** X4: construction never changes an object that is already in the heap;
    without a [loss] argument the 'epoch' and 'elbo' entries of the new
    dictionary are two different list objects, neither of them an object
    that existed before nor the dictionary itself. *)
Theorem init_preserves_heap (t : SVTypes) (k_arg : option Z) (hy : Hyper)
    (dev : string) (loss_arg : option loc) (h : gmap loc PyObj)
    (self : SVGenotyperPyroModel) (h' : gmap loc PyObj) :
  __init__ t k_arg hy dev loss_arg h = Ok (self, h') ->
  (forall l o, h !! l = Some o -> h' !! l = Some o) /\
  (loss_arg = None ->
   exists d l_epoch l_elbo,
     h' !! loss self = Some (PyDict d) /\
     d !! "epoch" = Some (PyRef l_epoch) /\
     d !! "elbo" = Some (PyRef l_elbo) /\
     l_epoch <> l_elbo /\
     l_epoch <> loss self /\ l_elbo <> loss self /\
     (l_epoch ∉ dom h) /\ (l_elbo ∉ dom h)).
Proof.
  intros Hinit. apply init_components in Hinit as [Hloss _].
  destruct loss_arg as [l|].
  - injection Hloss as _ <-. split; [auto | discriminate].
  - apply init_loss_none in Hloss
      as (le & lb & He & Hb & Hd & Hne1 & Hne2 & Hne3 & ->).
    split.
    + intros l o Hl.
      assert (l ∈ dom h) by (apply elem_of_dom; eauto).
      rewrite !lookup_insert_ne by (intros <-; contradiction). exact Hl.
    + intros _. eexists _, le, lb.
      split; [apply lookup_insert_eq|].
      split; [rewrite lookup_insert_ne by discriminate; apply lookup_singleton_eq|].
      split; [apply lookup_insert_eq|].
      repeat split; assumption.
Qed.

Lemma init_preserves_heap_witness :
  exists self h',
    __init__ INV None default_hyper "cpu" None {[5 := PyList [PyInt 1]]}
      = Ok (self, h') /\
    (forall l o, ({[5 := PyList [PyInt 1]]} : gmap loc PyObj) !! l = Some o ->
                 h' !! l = Some o) /\
    ((None : option loc) = None ->
     exists d l_epoch l_elbo,
       h' !! loss self = Some (PyDict d) /\
       d !! "epoch" = Some (PyRef l_epoch) /\
       d !! "elbo" = Some (PyRef l_elbo) /\
       l_epoch <> l_elbo /\
       l_epoch <> loss self /\ l_elbo <> loss self /\
       (l_epoch ∉ dom ({[5 := PyList [PyInt 1]]} : gmap loc PyObj)) /\
       (l_elbo ∉ dom ({[5 := PyList [PyInt 1]]} : gmap loc PyObj))).
Proof.
  destruct (__init__ INV None default_hyper "cpu" None {[5 := PyList [PyInt 1]]})
    as [[self h']|e] eqn:E; [|discriminate E].
  exists self, h'. split; [reflexivity|].
  exact (init_preserves_heap INV None default_hyper "cpu" None _ self h' E).
Defined.

(** X5: two models constructed without a [loss] argument do not share their
    loss trace: the dictionaries are different objects, so are their
    'epoch' lists and their 'elbo' lists, and the second construction
    leaves the first model's dictionary as it was. *)
Theorem init_default_loss_not_shared (t1 t2 : SVTypes) (k1 k2 : option Z)
    (hy1 hy2 : Hyper) (dev1 dev2 : string) (h h1 h2 : gmap loc PyObj)
    (m1 m2 : SVGenotyperPyroModel) :
  __init__ t1 k1 hy1 dev1 None h = Ok (m1, h1) ->
  __init__ t2 k2 hy2 dev2 None h1 = Ok (m2, h2) ->
  loss m1 <> loss m2 /\
  h2 !! loss m1 = h1 !! loss m1 /\
  exists d1 d2,
    h2 !! loss m1 = Some (PyDict d1) /\
    h2 !! loss m2 = Some (PyDict d2) /\
    d1 !! "epoch" <> d2 !! "epoch" /\
    d1 !! "elbo" <> d2 !! "elbo".
Proof.
  intros [Hl1 _]%init_components [Hl2 _]%init_components.
  apply init_loss_none in Hl1
    as (le1 & lb1 & He1 & Hb1 & Hd1 & Hn11 & Hn12 & Hn13 & ->).
  apply init_loss_none in Hl2
    as (le2 & lb2 & He2 & Hb2 & Hd2 & Hn21 & Hn22 & Hn23 & ->).
  rewrite !dom_insert in He2, Hb2, Hd2.
  assert (loss m1 <> loss m2) by set_solver.
  assert (le1 <> le2) by set_solver.
  assert (lb1 <> lb2) by set_solver.
  split; [assumption|]. split.
  - rewrite (lookup_insert_ne _ (loss m2)) by congruence.
    rewrite (lookup_insert_ne _ lb2) by set_solver.
    rewrite (lookup_insert_ne _ le2) by set_solver.
    reflexivity.
  - eexists _, _. split; [|split; [|split]].
    + rewrite (lookup_insert_ne _ (loss m2)) by congruence.
      rewrite (lookup_insert_ne _ lb2) by set_solver.
      rewrite (lookup_insert_ne _ le2) by set_solver.
      apply lookup_insert_eq.
    + apply lookup_insert_eq.
    + rewrite !lookup_insert_ne by discriminate.
      rewrite !lookup_singleton_eq. congruence.
    + rewrite !lookup_insert_eq. congruence.
Qed.

Lemma init_default_loss_not_shared_witness :
  exists m1 h1 m2 h2,
    __init__ DEL None default_hyper "cpu" None ∅ = Ok (m1, h1) /\
    __init__ DUP None default_hyper "cpu" None h1 = Ok (m2, h2) /\
    loss m1 <> loss m2 /\
    h2 !! loss m1 = h1 !! loss m1 /\
    exists d1 d2,
      h2 !! loss m1 = Some (PyDict d1) /\
      h2 !! loss m2 = Some (PyDict d2) /\
      d1 !! "epoch" <> d2 !! "epoch" /\
      d1 !! "elbo" <> d2 !! "elbo".
Proof.
  destruct (__init__ DEL None default_hyper "cpu" None ∅)
    as [[m1 h1]|e] eqn:E1; [|discriminate E1].
  destruct (__init__ DUP None default_hyper "cpu" None h1)
    as [[m2 h2]|e] eqn:E2.
  - exists m1, h1, m2, h2. split; [reflexivity|]. split; [exact E2|].
    exact (init_default_loss_not_shared DEL DUP None None default_hyper
             default_hyper "cpu" "cpu" ∅ h1 h2 m1 m2 E1 E2).
  - exfalso. unfold __init__ in E2.
    destruct (init_loss None h1). simpl in E2. discriminate E2.
Defined.

(** ** The body of [model] *)

Lemma locs_length (self : SVGenotyperPyroModel) (sites : Sites) (ch : Channel)
    (v : nat) :
  length (locs self sites ch v) = Z.to_nat (k self).
Proof.
  unfold locs, m0_locs, m1_locs, k_range_t.
  rewrite length_zip_with, !length_map, length_seq. lia.
Qed.

Lemma mu_obs_is_Some (self : SVGenotyperPyroModel) (sites : Sites)
    (data : SVGenotyperData) (ch : Channel) (v s zv : nat) :
  is_Some (mu_obs self sites data ch v s zv) <-> zv < Z.to_nat (k self).
Proof.
  unfold mu_obs. rewrite <- (locs_length self sites ch v).
  rewrite <- lookup_lt_is_Some.
  destruct (locs self sites ch v !! zv); split; intros [x Hx]; eauto; discriminate.
Qed.

Lemma z_prior_k3_length (e : R) : length (z_prior_k3 e) = 3.
Proof. reflexivity. Qed.

Lemma z_prior_k5_length (e1 e2 : R) : length (z_prior_k5 e1 e2) = 5.
Proof. reflexivity. Qed.

(** X6: for a model that [__init__] returned, the check of K inside
    [model] never fires: the derived prior of every variant is computed and
    has K entries, and the gather of a channel's mean at a state is defined
    exactly for the states below K. *)
Theorem constructed_model_prior_defined (t : SVTypes) (k_arg : option Z)
    (hy : Hyper) (dev : string) (loss_arg : option loc) (h : gmap loc PyObj)
    (self : SVGenotyperPyroModel) (h' : gmap loc PyObj) :
  __init__ t k_arg hy dev loss_arg h = Ok (self, h') ->
  forall (sites : Sites) (data : SVGenotyperData) (ch : Channel) (v s zv : nat),
    (exists prior, z_prior self sites v = Ok prior /\
                   length prior = Z.to_nat (k self)) /\
    (is_Some (mu_obs self sites data ch v s zv) <-> zv < Z.to_nat (k self)).
Proof.
  intros Hinit sites data ch v s zv. split; [|apply mu_obs_is_Some].
  unfold z_prior.
  destruct (init_k_constructed _ _ _ _ _ _ _ _ Hinit) as [-> | ->]; simpl;
    eexists; split; reflexivity.
Qed.

Lemma constructed_model_prior_defined_witness :
  exists self h',
    __init__ DUP None default_hyper "cpu" None ∅ = Ok (self, h') /\
    (exists prior, z_prior self (uniform_sites 1 1 1 true 4) 0 = Ok prior /\
                   length prior = Z.to_nat (k self)) /\
    (is_Some (mu_obs self (uniform_sites 1 1 1 true 4) (uniform_data 1 1 []) PE 0 0 4)
     <-> 4 < Z.to_nat (k self)).
Proof.
  destruct (__init__ DUP None default_hyper "cpu" None ∅)
    as [[self h']|e] eqn:E; [|discriminate E].
  exists self, h'. split; [reflexivity|].
  exact (constructed_model_prior_defined DUP None default_hyper "cpu" None ∅
           self h' E (uniform_sites 1 1 1 true 4) (uniform_data 1 1 []) PE 0 0 4).
Defined.

Section WeightFacts.
Local Open Scope R_scope.

Lemma z_prior_simplex_of (self : SVGenotyperPyroModel) (sites : Sites) (v : nat)
    (prior : list R) :
  z_prior self sites v = Ok prior ->
  0 <= eta_q self sites v -> 0 <= eta_r self sites v ->
  Forall (fun x => 0 <= x) prior /\ Rsum prior = 1.
Proof.
  unfold z_prior. intros Hp Hq Hr.
  destruct (bool_decide (k self = 3%Z)).
  - injection Hp as <-. apply z_prior_k3_simplex, Hq.
  - destruct (bool_decide (k self = 5%Z)); [|discriminate].
    injection Hp as <-. apply z_prior_k5_simplex; assumption.
Qed.

Lemma k5_collapses (e : R) : z_prior_k5 e 0 = z_prior_k3 e ++ [0; 0].
Proof.
  unfold z_prior_k5, z_prior_k3. rewrite Ropp_0, exp_0. simpl.
  repeat (apply (f_equal2 cons); [ring|]). reflexivity.
Qed.

End WeightFacts.

(** X7: the categorical weights of [z] form a probability vector: when the
    rates [eta_q] and [eta_r] are non-negative and the cell's [rd_gt_prob]
    row has as many entries as the prior, none negative, summing to 1, the
    weights are computed, none is negative and they sum to 1, whatever the
    read-depth indicator is. *)
Theorem z_weights_simplex (self : SVGenotyperPyroModel) (sites : Sites)
    (data : SVGenotyperData) (v s : nat) (prior : list R) :
  z_prior self sites v = Ok prior ->
  (0 <= eta_q self sites v)%R -> (0 <= eta_r self sites v)%R ->
  length (rd_gt_prob_t data v s) = length prior ->
  Forall (fun x => (0 <= x)%R) (rd_gt_prob_t data v s) ->
  Rsum (rd_gt_prob_t data v s) = 1%R ->
  exists w,
    z_weights self sites data v s = Ok w /\
    length w = length prior /\
    Forall (fun x => (0 <= x)%R) w /\
    Rsum w = 1%R.
Proof.
  intros Hprior Hq Hr Hlen Hpos Hsum.
  destruct (z_prior_simplex_of self sites v prior Hprior Hq Hr) as [Hppos Hpsum].
  unfold z_weights. rewrite Hprior.
  destruct (m_rd_binary self sites v) as [Hm | Hm].
  - rewrite zip_with_select_r by assumption. eauto.
  - rewrite zip_with_select_l by assumption. eexists. split; [reflexivity|]. auto.
Qed.

Lemma z_weights_simplex_witness :
  exists w,
    z_weights del_model (uniform_sites 1 1 1 true 0)
              (uniform_data 1 1 [0.25; 0.25; 0.5]%R) 0 0 = Ok w /\
    length w = length (z_prior_k3 (eta_q del_model (uniform_sites 1 1 1 true 0) 0)) /\
    Forall (fun x => (0 <= x)%R) w /\
    Rsum w = 1%R.
Proof.
  apply (z_weights_simplex del_model (uniform_sites 1 1 1 true 0)
           (uniform_data 1 1 [0.25; 0.25; 0.5]%R) 0 0
           (z_prior_k3 (eta_q del_model (uniform_sites 1 1 1 true 0) 0))).
  - reflexivity.
  - unfold eta_q. simpl. lra.
  - unfold eta_r. simpl. lra.
  - reflexivity.
  - simpl. repeat (apply Forall_cons_2; [lra|]). apply Forall_nil_2.
  - unfold Rsum. simpl. lra.
Defined.

(** X8: with the second rate at zero the five-state prior is the
    three-state prior of the same [eta_q] followed by two zero weights; with
    both rates at zero all weight is on state 0. *)
Theorem z_prior_k5_collapses_to_k3 :
  (forall eta_q : R, z_prior_k5 eta_q 0 = z_prior_k3 eta_q ++ [0; 0]%R) /\
  z_prior_k3 0 = [1; 0; 0]%R /\
  z_prior_k5 0 0 = [1; 0; 0; 0; 0]%R.
Proof.
  split; [exact k5_collapses|].
  assert (H3 : z_prior_k3 0 = [1; 0; 0]%R).
  { unfold z_prior_k3. rewrite Ropp_0, exp_0.
    repeat (apply (f_equal2 cons); [ring|]). reflexivity. }
  split; [exact H3|]. rewrite k5_collapses, H3. reflexivity.
Qed.

Lemma elem_of_channels (self : SVGenotyperPyroModel) (ch : Channel) :
  ch ∈ channels self <-> ~ (ch = PE /\ svtype self = INS).
Proof.
  unfold channels, has_pe.
  destruct (decide (svtype self = INS)) as [Hins | Hins].
  - rewrite bool_decide_eq_false_2 by auto. simpl.
    rewrite !elem_of_cons, elem_of_nil. destruct ch; intuition congruence.
  - rewrite bool_decide_eq_true_2 by auto. simpl.
    rewrite !elem_of_cons, elem_of_nil. destruct ch; intuition congruence.
Qed.

(** X10: a model for Insertion evaluates no paired-end emission, whatever
    the inputs are; apart from that a cell has an emission for a channel
    exactly when its state is below K. *)
Theorem emission_none_iff (self : SVGenotyperPyroModel) (sites : Sites)
    (data : SVGenotyperData) (ch : Channel) (v s : nat) :
  emission self sites data ch v s = None <->
  (ch = PE /\ svtype self = INS) \/ Z.to_nat (k self) <= s_z sites v s.
Proof.
  unfold emission, r_obs, p_obs.
  pose proof (mu_obs_is_Some self sites data ch v s (s_z sites v s)) as Hmu.
  pose proof (elem_of_channels self ch) as Hch.
  destruct (decide (ch ∈ channels self)) as [Hin | Hnin].
  - rewrite bool_decide_eq_true_2 by exact Hin.
    destruct (mu_obs self sites data ch v s (s_z sites v s)) as [mu|].
    + split; [discriminate|]. intros [Hpe | Hk].
      * exfalso. apply Hch in Hin. contradiction.
      * exfalso. assert (s_z sites v s < Z.to_nat (k self)) by (apply Hmu; eauto). lia.
    + split; [|reflexivity]. intros _. right.
      destruct (decide (s_z sites v s < Z.to_nat (k self))) as [Hlt | Hge]; [|lia].
      apply Hmu in Hlt as [x Hx]. discriminate Hx.
  - rewrite bool_decide_eq_false_2 by exact Hnin.
    split; [|reflexivity]. intros _. left.
    destruct (decide (ch = PE /\ svtype self = INS)) as [H | H]; [exact H|].
    exfalso. apply Hnin, Hch, H.
Qed.

(** X12: [__init__] accepts an overdispersion scale of zero, and a model
    constructed with it has a zero divisor in that channel at every cell
    and for every value of the sample sites: the computed [total_count]
    is never finite. *)
Theorem zero_overdispersion_scale_degenerate (t : SVTypes) (k_arg : option Z)
    (hy : Hyper) (dev : string) (loss_arg : option loc) (h : gmap loc PyObj)
    (self : SVGenotyperPyroModel) (h' : gmap loc PyObj) (ch : Channel) :
  __init__ t k_arg hy dev loss_arg h = Ok (self, h') ->
  h_mu_lambda hy ch = 0%R ->
  forall (sites : Sites) (data : SVGenotyperData) (v s zv : nat),
    lambda self sites ch = 0%R /\
    match mu_obs self sites data ch v s zv with
    | Some mu =>
        (nb_var mu (lambda self sites ch) - mu = 0)%R /\
        is_finite (nb_total_count mu (lambda self sites ch)) = false
    | None => True
    end.
Proof.
  intros Hinit Hz sites data v s zv.
  apply init_inversion in Hinit as (base & _ & _ & _ & _ & _ & Hpe & H1 & H2).
  assert (Hlam : lambda self sites ch = 0%R).
  { unfold lambda. destruct ch; simpl in Hz;
      rewrite ?Hpe, ?H1, ?H2, Hz; ring. }
  split; [exact Hlam|].
  destruct (mu_obs self sites data ch v s zv) as [mu|]; [|exact I].
  rewrite Hlam. split.
  - rewrite nb_divisor. ring.
  - unfold nb_total_count. apply torch_div_zero. rewrite nb_divisor. ring.
Qed.

Lemma zero_overdispersion_scale_degenerate_witness :
  exists self h',
    __init__ DEL None zero_lambda_hyper "cpu" None ∅ = Ok (self, h') /\
    lambda self (uniform_sites 1 1 1 true 1) SR1 = 0%R /\
    match mu_obs self (uniform_sites 1 1 1 true 1) (uniform_data 1 1 []) SR1 0 0 1 with
    | Some mu =>
        (nb_var mu (lambda self (uniform_sites 1 1 1 true 1) SR1) - mu = 0)%R /\
        is_finite (nb_total_count mu (lambda self (uniform_sites 1 1 1 true 1) SR1))
          = false
    | None => True
    end.
Proof.
  destruct (__init__ DEL None zero_lambda_hyper "cpu" None ∅)
    as [[self h']|e] eqn:E; [|discriminate E].
  exists self, h'. split; [reflexivity|].
  apply (zero_overdispersion_scale_degenerate DEL None zero_lambda_hyper "cpu"
           None ∅ self h' SR1 E).
  reflexivity.
Defined.

(** ** The discrete-inference driver *)

(** X13: without a positive draw count [infer_discrete] does not return an
    empty result but raises the [RuntimeError] of stacking an empty list,
    for every model, class and logging period. *)
Theorem infer_discrete_no_draws (RNG Cont : Type)
    (run_guide : SVGenotyperPyroModel -> SVGenotyperData -> RNG -> Cont * RNG)
    (run_discrete :
       SVGenotyperPyroModel -> Cont -> SVGenotyperData -> RNG -> DiscreteDraw * RNG)
    (self : SVGenotyperPyroModel) (data : SVGenotyperData) (svtype_arg : SVTypes)
    (log_freq n_draws : Z) (w : World RNG) :
  (n_draws <= 0)%Z ->
  exists msg,
    infer_discrete RNG Cont run_guide run_discrete self data svtype_arg
                   log_freq n_draws w
    = Raise (RuntimeError msg).
Proof.
  intros Hn. eexists.
  unfold infer_discrete, guide_get_trace, logging_info, emit, sample_with.
  unfold mbind at 1 2 3, M_bind at 1 2 3. cbn [rng events].
  destruct (run_guide self data (rng w)) as [c g].
  unfold stack_sites, range.
  replace (Z.to_nat n_draws) with 0 by lia.
  destruct (discrete_sites_head svtype_arg) as [rest ->].
  reflexivity.
Qed.

Lemma infer_discrete_no_draws_witness :
  exists msg,
    infer_discrete nat nat counter_guide echo_discrete del_model
                   (uniform_data 2 3 []) DEL 100 0 initial_world
    = Raise (RuntimeError msg).
Proof.
  apply (infer_discrete_no_draws nat nat counter_guide echo_discrete del_model
           (uniform_data 2 3 []) DEL 100 0 initial_world).
  lia.
Defined.





(** X16: for evidence with at least two variants and one sample, every
    result that [infer_discrete] returns is a dictionary with exactly the
    five keys z, m_pe, m_sr1, m_sr2 and m_rd; [z] has shape [N, V, S] and
    the four indicators [N, V, 1].  An indicator that the requested class
    does not ask for is all zero even when the model samples it. *)
Theorem infer_discrete_result_keys (RNG Cont : Type)
    (run_guide : SVGenotyperPyroModel -> SVGenotyperData -> RNG -> Cont * RNG)
    (run_discrete :
       SVGenotyperPyroModel -> Cont -> SVGenotyperData -> RNG -> DiscreteDraw * RNG)
    (self : SVGenotyperPyroModel) (data : SVGenotyperData) (svtype_arg : SVTypes)
    (log_freq n_draws : Z) (w : World RNG)
    (out : gmap string (Tensor Z)) (w' : World RNG) :
  infer_discrete RNG Cont run_guide run_discrete self data svtype_arg
                 log_freq n_draws w = Ok (out, w') ->
  2 <= n_variants data ->
  1 <= n_samples data ->
  dom out = ({["z"; "m_pe"; "m_sr1"; "m_sr2"; "m_rd"]} : gset string) /\
  (forall site t, out !! site = Some t ->
     shape t = [Z.to_nat n_draws; n_variants data;
                if bool_decide (site = "z") then n_samples data else 1]) /\
  (forall site, site = "m_pe" \/ site = "m_rd" ->
     site ∉ discrete_sites svtype_arg ->
     out !! site = Some (zeros 0%Z [Z.to_nat n_draws; n_variants data; 1])).
Proof.
  intros Hok HV _.
  destruct (infer_discrete_ok_run RNG Cont run_guide run_discrete self data
              svtype_arg log_freq n_draws w out w' Hok)
    as (stacked & Hres & _ & Hlen & Hin & Hout).
  set (ds := (discrete_draws run_discrete self
                (run_guide self data (rng w)).1 data (Z.to_nat n_draws)
                (run_guide self data (rng w)).2).1) in *.
  destruct (discrete_sites_base svtype_arg) as [Sz [S1 S2]].
  destruct (discrete_result_lookup stacked _ _ _ (Hin _ Sz) (Hin _ S1) (Hin _ S2))
    as (out' & Hres' & Hdom & Hz & H1 & H2 & Hpe & Hrd).
  rewrite Hres in Hres'. injection Hres' as <-.
  assert (Hdefault : forall site, site = "m_pe" \/ site = "m_rd" ->
            shape (default (zeros 0%Z (shape (stacked_site data "m_sr1" ds)))
                           (stacked !! site))
            = Z.to_nat n_draws :: site_shape data site).
  { intros site Hsite.
    destruct (decide (site ∈ discrete_sites svtype_arg)) as [Hs | Hs].
    - rewrite (Hin _ Hs). simpl. rewrite Hlen. reflexivity.
    - rewrite (Hout _ Hs). simpl. rewrite Hlen.
      destruct Hsite as [-> | ->]; reflexivity. }
  assert (Hshape : forall site t, out !! site = Some t ->
            shape t = Z.to_nat n_draws :: site_shape data site).
  { intros site t Ht.
    assert (Hs : site ∈ dom out) by (apply elem_of_dom; eauto).
    rewrite Hdom in Hs. rewrite !elem_of_union, !elem_of_singleton in Hs.
    destruct Hs as [[[[-> | ->] | ->] | ->] | ->].
    - rewrite Hz in Ht. injection Ht as <-. simpl. rewrite Hlen. reflexivity.
    - rewrite Hpe in Ht. injection Ht as <-. apply Hdefault. auto.
    - rewrite H1 in Ht. injection Ht as <-. simpl. rewrite Hlen. reflexivity.
    - rewrite H2 in Ht. injection Ht as <-. simpl. rewrite Hlen. reflexivity.
    - rewrite Hrd in Ht. injection Ht as <-. apply Hdefault. auto. }
  split; [exact Hdom|]. split.
  - intros site t Ht. rewrite (Hshape site t Ht), site_shape_two by exact HV.
    reflexivity.
  - intros site [-> | ->] Hnin.
    + rewrite Hpe, (Hout _ Hnin). simpl.
      rewrite Hlen, site_shape_two by exact HV. reflexivity.
    + rewrite Hrd, (Hout _ Hnin). simpl.
      rewrite Hlen, site_shape_two by exact HV. reflexivity.
Qed.

Lemma infer_discrete_result_keys_witness :
  exists out w',
    infer_discrete nat nat counter_guide echo_discrete del_model
                   (uniform_data 2 3 [0.5; 0.25; 0.25]%R) INS 7 2 initial_world
      = Ok (out, w') /\
    dom out = ({["z"; "m_pe"; "m_sr1"; "m_sr2"; "m_rd"]} : gset string) /\
    (forall site t, out !! site = Some t ->
       shape t = [Z.to_nat 2; n_variants (uniform_data 2 3 [0.5; 0.25; 0.25]%R);
                  if bool_decide (site = "z")
                  then n_samples (uniform_data 2 3 [0.5; 0.25; 0.25]%R) else 1]) /\
    (forall site, site = "m_pe" \/ site = "m_rd" ->
       site ∉ discrete_sites INS ->
       out !! site
       = Some (zeros 0%Z [Z.to_nat 2;
                          n_variants (uniform_data 2 3 [0.5; 0.25; 0.25]%R); 1])).
Proof.
  destruct (infer_discrete nat nat counter_guide echo_discrete del_model
              (uniform_data 2 3 [0.5; 0.25; 0.25]%R) INS 7 2 initial_world)
    as [[out w']|e] eqn:E; [|vm_compute in E; discriminate E].
  exists out, w'. split; [reflexivity|].
  apply (infer_discrete_result_keys nat nat counter_guide echo_discrete
           del_model (uniform_data 2 3 [0.5; 0.25; 0.25]%R) INS 7 2 initial_world
           out w' E).
  - simpl. lia.
  - simpl. lia.
Defined.

(** X17: for evidence with at least two variants and one sample, in every
    result that [infer_discrete] returns each requested site is the stack
    of that site's values in the N successive traces of the enumerated
    model, in the order of the draws, unchanged; the call leaves the
    random-number state that one guide trace followed by these N traces
    leaves. *)
Theorem infer_discrete_draws_in_order (RNG Cont : Type)
    (run_guide : SVGenotyperPyroModel -> SVGenotyperData -> RNG -> Cont * RNG)
    (run_discrete :
       SVGenotyperPyroModel -> Cont -> SVGenotyperData -> RNG -> DiscreteDraw * RNG)
    (self : SVGenotyperPyroModel) (data : SVGenotyperData) (svtype_arg : SVTypes)
    (log_freq n_draws : Z) (w : World RNG)
    (out : gmap string (Tensor Z)) (w' : World RNG) :
  infer_discrete RNG Cont run_guide run_discrete self data svtype_arg
                 log_freq n_draws w = Ok (out, w') ->
  2 <= n_variants data ->
  1 <= n_samples data ->
  let c := (run_guide self data (rng w)).1 in
  let g1 := (run_guide self data (rng w)).2 in
  let draws := discrete_draws run_discrete self c data (Z.to_nat n_draws) g1 in
  rng w' = draws.2 /\
  length draws.1 = Z.to_nat n_draws /\
  (forall site, site ∈ discrete_sites svtype_arg ->
     out !! site = Some (stacked_site data site draws.1)).
Proof.
  intros Hok _ _ c g1 draws.
  destruct (infer_discrete_ok_run RNG Cont run_guide run_discrete self data
              svtype_arg log_freq n_draws w out w' Hok)
    as (stacked & Hres & Hrng & Hlen & Hin & Hout).
  fold c g1 draws in Hrng, Hlen, Hin.
  destruct (discrete_sites_base svtype_arg) as [Sz [S1 S2]].
  destruct (discrete_result_lookup stacked _ _ _ (Hin _ Sz) (Hin _ S1) (Hin _ S2))
    as (out' & Hres' & Hdom & Hz & H1 & H2 & Hpe & Hrd).
  rewrite Hres in Hres'. injection Hres' as <-.
  split; [exact Hrng|]. split; [exact Hlen|].
  intros site Hs.
  destruct (discrete_sites_cases _ _ Hs) as [-> | [-> | [-> | [-> | ->]]]];
    try assumption.
  - rewrite Hpe, (Hin _ Hs). reflexivity.
  - rewrite Hrd, (Hin _ Hs). reflexivity.
Qed.

Lemma infer_discrete_draws_in_order_witness :
  let data := uniform_data 2 3 [0.5; 0.25; 0.25]%R in
  let draws := discrete_draws echo_discrete del_model
                 (counter_guide del_model data (rng initial_world)).1
                 data (Z.to_nat 2)
                 (counter_guide del_model data (rng initial_world)).2 in
  exists out w',
    infer_discrete nat nat counter_guide echo_discrete del_model
                   data DEL 7 2 initial_world = Ok (out, w') /\
    rng w' = draws.2 /\
    length draws.1 = Z.to_nat 2 /\
    (forall site, site ∈ discrete_sites DEL ->
       out !! site = Some (stacked_site data site draws.1)).
Proof.
  intros data draws.
  destruct (infer_discrete nat nat counter_guide echo_discrete del_model
              data DEL 7 2 initial_world)
    as [[out w']|e] eqn:E; [|vm_compute in E; discriminate E].
  exists out, w'. split; [reflexivity|].
  apply (infer_discrete_draws_in_order nat nat counter_guide echo_discrete
           del_model data DEL 7 2 initial_world out w' E).
  - simpl. lia.
  - simpl. lia.
Defined.
